(** * FluxMarket API: a shallow embedding of [main.py] and [schemas.py]

    The request handlers of [main.py] are embedded as computations in a
    state-and-exception monad over a document store.  The store is a record
    of four collections in natural (insertion) order, together with a log of
    every access made to it.  Python strings are [string]s whose characters
    stand for code points below 256. *)

From Stdlib Require Import ZArith String Ascii Bool List PrimFloat Lia.
From Stdlib Require Import Sorting.Sorted.
From stdpp Require Import base option gmap strings list.

Local Open Scope string_scope.
Local Open Scope Z_scope.

(** ** Characters and strings *)

Definition chars (s : string) : list ascii := list_ascii_of_string s.

Definition code (c : ascii) : N := N_of_ascii c.

Definition between (lo hi c : ascii) : bool :=
  ((code lo <=? code c) && (code c <=? code hi))%N.

Definition is_upper (c : ascii) : bool := between "A" "Z" c.
Definition is_lower (c : ascii) : bool := between "a" "z" c.
Definition is_digit (c : ascii) : bool := between "0" "9" c.
Definition is_alnum (c : ascii) : bool := is_upper c || is_lower c || is_digit c.

(** Case folding of the letters A-Z; every other character is left alone. *)
Definition lower (c : ascii) : ascii :=
  if is_upper c then ascii_of_N (code c + 32) else c.

Definition lower_str (s : string) : string :=
  string_of_list_ascii (List.map lower (chars s)).

Definition is_hex (c : ascii) : bool :=
  is_digit c || between "a" "f" c || between "A" "F" c.

(** Python's [len(s)] as an [int]. *)
Definition len (s : string) : Z := Z.of_nat (String.length s).

(** ** BSON identifiers and values *)

Module ObjectId.

(** An identifier is a sequence of bytes, kept here as the lowercase
    hexadecimal digits that [str(oid)] prints: 24 digits for the twelve
    bytes of an identifier that the store assigns. *)
Inductive t := Oid (hex : string).

Definition str (o : t) : string := let 'Oid h := o in h.

(** The format of the identifiers as the store documents it: exactly 24
    hexadecimal digits, in either letter case. *)
Definition well_formed (s : string) : bool :=
  (len s =? 24) && forallb is_hex (chars s).

(** ASCII whitespace: the space and the characters 9 to 13. *)
Definition is_space (c : ascii) : bool :=
  (code c =? 32)%N || ((9 <=? code c) && (code c <=? 13))%N.

(** [bytes.fromhex]: pairs of hexadecimal digits, with any ASCII whitespace
    before, between and after the pairs skipped; every other string is
    refused.  The bytes are returned as their digits in lower case. *)
Fixpoint fromhex (s : list ascii) : option (list ascii) :=
  match s with
  | [] => Some []
  | c :: rest =>
      if is_space c then fromhex rest
      else if is_hex c then
        match rest with
        | d :: rest' =>
            if is_hex d then cons (lower c) ∘ cons (lower d) <$> fromhex rest'
            else None
        | [] => None
        end
      else None
  end.

(** [ObjectId(s)] of [bson] on a string: a string of 24 characters is read
    with [bytes.fromhex], every other string is refused. *)
Definition of_hex (s : string) : option t :=
  if len s =? 24 then Oid ∘ string_of_list_ascii <$> fromhex (chars s) else None.

(** The strings that [of_hex] reads, as a grammar: whitespace characters
    and pairs of hexadecimal digits, in any sequence. *)
Inductive Hex_pairs : list ascii → Prop :=
| pairs_nil : Hex_pairs []
| pairs_space c l : is_space c = true → Hex_pairs l → Hex_pairs (c :: l)
| pairs_byte c d l :
    is_hex c = true → is_hex d = true → Hex_pairs l → Hex_pairs (c :: d :: l).

Definition readable (s : string) : Prop := len s = 24 ∧ Hex_pairs (chars s).

Definition eqb (a b : t) : bool := String.eqb (str a) (str b).

(** Identifiers compare as their bytes do, that is as their digits do. *)
Definition ltb (a b : t) : bool := String.ltb (str a) (str b).
Definition leb (a b : t) : bool := String.leb (str a) (str b).

End ObjectId.

Inductive value :=
| VNull
| VFloat (f : float)
| VStr (s : string)
| VList (l : list string)
| VOid (o : ObjectId.t)
| VBool (b : bool)
| VDate (t : Z).

Definition value_eqb (a b : value) : bool :=
  match a, b with
  | VNull, VNull => true
  | VFloat x, VFloat y => PrimFloat.eqb x y
  | VStr x, VStr y => String.eqb x y
  | VList x, VList y => bool_decide (x = y)
  | VOid x, VOid y => ObjectId.eqb x y
  | VBool x, VBool y => Bool.eqb x y
  | VDate x, VDate y => x =? y
  | _, _ => false
  end.

(** A stored field meets the value a filter asks for when it equals it, or
    when it is an array that holds it. *)
Definition meets (x v : value) : bool :=
  match x, v with
  | VList l, VStr s => existsb (String.eqb s) l
  | _, _ => value_eqb x v
  end.

(** The rank of a value's type in the store's comparison order; a missing
    field sorts as null. *)
Definition bson_rank (v : option value) : Z :=
  match v with
  | None | Some VNull => 2
  | Some (VFloat _) => 3
  | Some (VStr _) => 4
  | Some (VList _) => 6
  | Some (VOid _) => 8
  | Some (VBool _) => 9
  | Some (VDate _) => 10
  end.

(** [key_leb a b]: key [a] sorts no later than key [b].  Keys of one type
    compare by value (arrays are left unordered among themselves: no query of
    this program sorts on one), keys of different types by rank. *)
Definition key_leb (a b : option value) : bool :=
  match a, b with
  | Some (VFloat x), Some (VFloat y) => PrimFloat.leb x y
  | Some (VStr x), Some (VStr y) => String.leb x y
  | Some (VOid x), Some (VOid y) => ObjectId.leb x y
  | Some (VBool x), Some (VBool y) => implb x y
  | Some (VDate x), Some (VDate y) => x <=? y
  | _, _ => bson_rank a <=? bson_rank b
  end.

(** ** The schemas of [schemas.py] *)

Module User.
Record t := mk {
  name : string;
  email : string;
  password_hash : string;
  avatar_url : option string;
  location : option string;
  is_active : bool;
}.
End User.

Module Listing.
Record t := mk {
  user_id : string;
  title : string;
  description : string;
  price : float;
  category : string;
  listing_type : string;
  location : option string;
  images : list string;
  status : string;
}.
End Listing.

Module Message.
Record t := mk {
  listing_id : string;
  from_user_id : string;
  to_user_id : string;
  content : string;
  read : bool;
}.
End Message.

Module Saved.
Record t := mk {
  user_id : string;
  listing_id : string;
}.
End Saved.

Definition opt_value (o : option string) : value :=
  match o with Some s => VStr s | None => VNull end.

(** A schema is a document type: its fields can be read by name, as the
    store does when it evaluates a filter or a sort key. *)
Class Schema (A : Type) := field : A → string → option value.

#[global] Instance User_schema : Schema User.t := λ u k,
  if String.eqb k "name" then Some (VStr (User.name u))
  else if String.eqb k "email" then Some (VStr (User.email u))
  else if String.eqb k "password_hash" then Some (VStr (User.password_hash u))
  else if String.eqb k "avatar_url" then Some (opt_value (User.avatar_url u))
  else if String.eqb k "location" then Some (opt_value (User.location u))
  else if String.eqb k "is_active" then Some (VBool (User.is_active u))
  else None.

#[global] Instance Listing_schema : Schema Listing.t := λ l k,
  if String.eqb k "user_id" then Some (VStr (Listing.user_id l))
  else if String.eqb k "title" then Some (VStr (Listing.title l))
  else if String.eqb k "description" then Some (VStr (Listing.description l))
  else if String.eqb k "price" then Some (VFloat (Listing.price l))
  else if String.eqb k "category" then Some (VStr (Listing.category l))
  else if String.eqb k "listing_type" then Some (VStr (Listing.listing_type l))
  else if String.eqb k "location" then Some (opt_value (Listing.location l))
  else if String.eqb k "images" then Some (VList (Listing.images l))
  else if String.eqb k "status" then Some (VStr (Listing.status l))
  else None.

#[global] Instance Message_schema : Schema Message.t := λ m k,
  if String.eqb k "listing_id" then Some (VStr (Message.listing_id m))
  else if String.eqb k "from_user_id" then Some (VStr (Message.from_user_id m))
  else if String.eqb k "to_user_id" then Some (VStr (Message.to_user_id m))
  else if String.eqb k "content" then Some (VStr (Message.content m))
  else if String.eqb k "read" then Some (VBool (Message.read m))
  else None.

#[global] Instance Saved_schema : Schema Saved.t := λ s k,
  if String.eqb k "user_id" then Some (VStr (Saved.user_id s))
  else if String.eqb k "listing_id" then Some (VStr (Saved.listing_id s))
  else None.

(** A stored document: the schema's fields with the identifier and the
    creation time the persistence layer gave it. *)
Record Doc (A : Type) := mkDoc {
  _id : ObjectId.t;
  created_at : Z;
  fields : A;
}.
Arguments mkDoc {A} _ _ _.
Arguments _id {A} _.
Arguments created_at {A} _.
Arguments fields {A} _.

Definition doc_field `{Schema A} (d : Doc A) (k : string) : option value :=
  if String.eqb k "_id" then Some (VOid (_id d))
  else if String.eqb k "created_at" then Some (VDate (created_at d))
  else field (fields d) k.

(** ** Regular expressions of the store

    The store evaluates [$regex] with a PCRE engine.  This module models the
    fragment of PCRE patterns made of plain characters, the dot and escaped
    punctuation, under the caseless option [i]; every other pattern is
    handed to the engine itself. *)

Module Pcre.

Inductive atom := Lit (c : ascii) | AnyChar.

Inductive compiled :=
| Compiled (r : list atom)
| Rejected      (* the engine refuses the pattern *)
| Unmodelled.   (* the pattern uses syntax outside the fragment *)

Definition is_meta (c : ascii) : bool :=
  existsb (Ascii.eqb c) (chars "\^$.[]|()?*+{}").

Definition is_ascii (c : ascii) : bool := ((0 <? code c) && (code c <? 128))%N.

(** A plain character stands for itself in a pattern. *)
Definition is_plain (c : ascii) : bool := is_ascii c && negb (is_meta c).

(** A backslash before a character that is not a letter or a digit takes
    any special meaning away from it. *)
Definition escapable (c : ascii) : bool := is_ascii c && negb (is_alnum c).

Definition and_then (a : atom) (rest : compiled) : compiled :=
  match rest with
  | Compiled r => Compiled (a :: r)
  | other => other
  end.

Fixpoint compile_chars (p : list ascii) : compiled :=
  match p with
  | [] => Compiled []
  | c :: rest =>
      if Ascii.eqb c "\" then
        match rest with
        | [] => Rejected
        | e :: rest' =>
            if escapable e then and_then (Lit e) (compile_chars rest')
            else Unmodelled
        end
      else if Ascii.eqb c "." then and_then AnyChar (compile_chars rest)
      else if is_plain c then and_then (Lit c) (compile_chars rest)
      else Unmodelled
  end.

(** [$options]: only the caseless flag [i] is modelled. *)
Definition compile (pattern options : string) : compiled :=
  if forallb (Ascii.eqb "i") (chars options) then compile_chars (chars pattern)
  else Unmodelled.

Definition caseless (options : string) : bool :=
  existsb (Ascii.eqb "i") (chars options).

Definition newline : ascii := ascii_of_N 10.

Definition atom_matches (ci : bool) (a : atom) (x : ascii) : bool :=
  match a with
  | Lit c => if ci then Ascii.eqb (lower c) (lower x) else Ascii.eqb c x
  | AnyChar => negb (Ascii.eqb x newline)
  end.

(** The pattern matches a prefix of the subject. *)
Fixpoint match_here (ci : bool) (r : list atom) (s : list ascii) : bool :=
  match r, s with
  | [], _ => true
  | a :: r', x :: s' => atom_matches ci a x && match_here ci r' s'
  | _ :: _, [] => false
  end.

(** The pattern matches somewhere in the subject (it is not anchored). *)
Fixpoint search_from (ci : bool) (r : list atom) (s : list ascii) : bool :=
  match_here ci r s ||
  match s with
  | [] => false
  | _ :: s' => search_from ci r s'
  end.

Definition search (ci : bool) (r : list atom) (subject : string) : bool :=
  search_from ci r (chars subject).

(** A pattern outside the fragment is left to the engine of the store,
    which is taken as it is: given the pattern and the options it either
    refuses the pattern or tells which subjects the pattern matches. *)
Class Engine := library : string → string → option (string → bool).

Section Evaluation.
Context `{Engine}.

(** The store refuses the pattern. *)
Definition refused (pattern options : string) : bool :=
  match compile pattern options with
  | Compiled _ => false
  | Rejected => true
  | Unmodelled =>
      match library pattern options with Some _ => false | None => true end
  end.

(** The pattern matches somewhere in the subject. *)
Definition test (pattern options subject : string) : bool :=
  match compile pattern options with
  | Compiled r => search (caseless options) r subject
  | Rejected => false
  | Unmodelled =>
      match library pattern options with
      | Some found_in => found_in subject
      | None => false
      end
  end.

End Evaluation.

End Pcre.

(** ** Filters

    A filter is the dictionary the handlers build: field names mapped to
    conditions, all of which a document must meet. *)

Inductive cond :=
| Eq (v : value)
    (* {field: v} *)
| Regex (pattern options : string)
    (* {field: {"$regex": pattern, "$options": options}} *)
| AnyOf (alternatives : list (gmap string value)).
    (* {"$or": [{field: v, ...}, ...]} *)

Section Matching.
Context `{Pcre.Engine} `{Schema A}.

(** A filter value of null also matches a document without the field. *)
Definition holds_eq (d : Doc A) (k : string) (v : value) : bool :=
  match doc_field d k with
  | Some x => meets x v
  | None => meets VNull v
  end.

Definition holds_all (d : Doc A) (alt : gmap string value) : bool :=
  bool_decide (map_Forall (λ k v, holds_eq d k v = true) alt).

Definition holds (d : Doc A) (k : string) (c : cond) : bool :=
  match c with
  | Eq v => holds_eq d k v
  | Regex p o =>
      match doc_field d k with
      | Some (VStr s) => Pcre.test p o s
      | _ => false
      end
  | AnyOf alts => existsb (holds_all d) alts
  end.

Definition matches (f : gmap string cond) (d : Doc A) : bool :=
  bool_decide (map_Forall (λ k c, holds d k c = true) f).

End Matching.

(** The store refuses a filter that carries a pattern it cannot compile. *)
Definition rejected `{Pcre.Engine} (c : cond) : bool :=
  match c with
  | Regex p o => Pcre.refused p o
  | _ => false
  end.

(** ** Failures *)

Inductive exn :=
| HTTPException (status_code : Z) (detail : string)
    (* raised by the handlers *)
| RequestValidationError (parameter : string)
    (* the framework refuses a query parameter outside its bounds *)
| ValidationError (model : string)
    (* a schema of schemas.py refuses a field; no handler catches it *)
| OperationFailure
    (* the store refuses the query *)
| InvalidId.
    (* [ObjectId(s)] on a string that is not an identifier *)

(** The HTTP status the framework answers with. *)
Definition http_status (e : exn) : option Z :=
  match e with
  | HTTPException s _ => Some s
  | RequestValidationError _ => Some 422
  | ValidationError _ | OperationFailure | InvalidId => Some 500
  end.

Inductive result (A : Type) :=
| Ok (a : A)
| Raise (e : exn).
Arguments Ok {A} _.
Arguments Raise {A} _.

(** ** The store and the monad of the handlers *)

Record Database := mkDatabase {
  db_user : list (Doc User.t);
  db_listing : list (Doc Listing.t);
  db_message : list (Doc Message.t);
  db_saved : list (Doc Saved.t);
}.

(** One entry per round trip to the store. *)
Inductive access :=
| Reads (collection : string)
| Writes (collection : string).

Record World := mkWorld {
  db : Database;
  log : list access;
}.

Definition M (A : Type) : Type := World → result A * World.

#[global] Instance M_ret : MRet M := λ A a w, (Ok a, w).

#[global] Instance M_bind : MBind M := λ A B k m w,
  match m w with
  | (Ok a, w') => k a w'
  | (Raise e, w') => (Raise e, w')
  end.

Definition raise {A} (e : exn) : M A := λ w, (Raise e, w).

Definition touch (a : access) : M unit :=
  λ w, (Ok tt, {| db := db w; log := log w ++ [a] |}).

Definition get_db : M Database := λ w, (Ok (db w), w).

Definition put_db (d : Database) : M unit :=
  λ w, (Ok tt, {| db := d; log := log w |}).

(** The world after one more access, the database as it was. *)
Definition accessed (a : access) (w : World) : World :=
  {| db := db w; log := log w ++ [a] |}.

(** A handle on one collection of the database: [db.user], [db.listing],
    [db.message] and [db.saved]. *)
Record Collection (A : Type) := mkCollection {
  collection_name : string;
  documents : Database → list (Doc A);
  with_documents : list (Doc A) → Database → Database;
}.
Arguments collection_name {A} _.
Arguments documents {A} _ _.
Arguments with_documents {A} _ _ _.

Definition user : Collection User.t :=
  mkCollection User.t "user" db_user
    (λ l d, mkDatabase l (db_listing d) (db_message d) (db_saved d)).
Definition listing : Collection Listing.t :=
  mkCollection Listing.t "listing" db_listing
    (λ l d, mkDatabase (db_user d) l (db_message d) (db_saved d)).
Definition message : Collection Message.t :=
  mkCollection Message.t "message" db_message
    (λ l d, mkDatabase (db_user d) (db_listing d) l (db_saved d)).
Definition saved : Collection Saved.t :=
  mkCollection Saved.t "saved" db_saved
    (λ l d, mkDatabase (db_user d) (db_listing d) (db_message d) l).

(** *** Sorting and limiting a result *)

Fixpoint insert_sorted {A} (leb : A → A → bool) (x : A) (l : list A) : list A :=
  match l with
  | [] => [x]
  | y :: l' => if leb x y then x :: l else y :: insert_sorted leb x l'
  end.

(** The store leaves the order of documents with equal keys open; the model
    keeps them in natural order. *)
Definition stable_sort {A} (leb : A → A → bool) (l : list A) : list A :=
  foldr (insert_sorted leb) [] l.

(** [direction] is 1 for ascending and -1 for descending. *)
Definition sort_leb `{Schema A} (key : string) (direction : Z) (x y : Doc A) : bool :=
  if 0 <? direction
  then key_leb (doc_field x key) (doc_field y key)
  else key_leb (doc_field y key) (doc_field x key).

(** A limit of 0 means no limit; a negative limit counts as its absolute
    value. *)
Definition take_limit {A} (n : Z) (l : list A) : list A :=
  if n =? 0 then l else firstn (Z.to_nat (Z.abs n)) l.

(** *** Queries *)

(** A cursor is a query not yet sent; iterating it sends it. *)
Record Cursor (A : Type) := mkCursor {
  source : Collection A;
  query : gmap string cond;
  ordering : option (string * Z);
  bound : Z;
}.
Arguments mkCursor {A} _ _ _ _.
Arguments source {A} _.
Arguments query {A} _.
Arguments ordering {A} _.
Arguments bound {A} _.

Section Queries.
Context `{Pcre.Engine} `{Schema A}.

(** Run a filter against a collection: one read of the store. *)
Definition run (c : Collection A) (f : gmap string cond) : M (list (Doc A)) :=
  _ ← touch (Reads (collection_name c));
  if bool_decide (map_Exists (λ _ c, rejected c = true) f) then raise OperationFailure
  else
    d ← get_db;
    mret (List.filter (matches f) (documents c d)).

(** [c.find_one(f)]: the first match in natural order, if any. *)
Definition find_one (c : Collection A) (f : gmap string cond) : M (option (Doc A)) :=
  found ← run c f;
  mret (head found).

(** [c.find(f)] *)
Definition find (c : Collection A) (f : gmap string cond) : Cursor A :=
  mkCursor c f None 0.

End Queries.

Module Cursor.
Section Methods.
Context `{Pcre.Engine} `{Schema A}.

(** [cursor.sort(key, direction)] *)
Definition sort (key : string) (direction : Z) (cur : Cursor A) : Cursor A :=
  mkCursor (source cur) (query cur) (Some (key, direction)) (bound cur).

(** [cursor.limit(n)] *)
Definition limit (n : Z) (cur : Cursor A) : Cursor A :=
  mkCursor (source cur) (query cur) (ordering cur) n.

(** [for d in cursor] *)
Definition iterate (cur : Cursor A) : M (list (Doc A)) :=
  found ← run (source cur) (query cur);
  let ordered :=
    match ordering cur with
    | Some (key, direction) => stable_sort (sort_leb key direction) found
    | None => found
    end in
  mret (take_limit (bound cur) ordered).

End Methods.
End Cursor.

(** What the persistence layer assigns to a new document. *)
Record Assigned := mkAssigned {
  new_id : ObjectId.t;
  now : Z;
}.

(** Modelled from the spec: [create_document] of database.py, which is not
    part of the sources.  It is the store's [insert(record) -> assigned
    identifier]: the record is appended to the collection under an identifier
    and a creation timestamp assigned by the persistence layer, and the
    identifier is returned as a string. *)
Definition create_document {A} (c : Collection A) (data : A) (a : Assigned) : M string :=
  _ ← touch (Writes (collection_name c));
  d ← get_db;
  _ ← put_db (with_documents c (documents c d ++ [mkDoc (new_id a) (now a) data]) d);
  mret (ObjectId.str (new_id a)).

(** ** The request bodies and responses of [main.py] *)

Module RegisterBody.
Record t := mk {
  name : string;
  email : string;
  password : string;
  location : option string;
}.
End RegisterBody.

Module LoginBody.
Record t := mk {
  email : string;
  password : string;
}.
End LoginBody.

Module CreateListingBody.
Record t := mk {
  user_id : string;
  title : string;
  description : string;
  price : float;
  category : string;
  listing_type : string;
  location : option string;
  images : option (list string);
}.
End CreateListingBody.

Module SaveBody.
Record t := mk {
  user_id : string;
  listing_id : string;
}.
End SaveBody.

Module SendMessageBody.
Record t := mk {
  listing_id : string;
  from_user_id : string;
  to_user_id : string;
  content : string;
}.
End SendMessageBody.

(** [{"id": ..., "name": ..., "email": ...}] *)
Record Registered := mkRegistered {
  registered_id : string;
  registered_name : string;
  registered_email : string;
}.

(** [{"id": saved_id}] or [{"status": "already_saved"}] *)
Inductive SaveResponse :=
| SavedAs (id : string)
| AlreadySaved.

(** A document as the responses carry it: [d["id"] = str(d.pop("_id"))]
    puts the identifier under [id] as a string and keeps the other fields. *)
Record Item (A : Type) := mkItem {
  item_id : string;
  item_created_at : Z;
  item : A;
}.
Arguments mkItem {A} _ _ _.
Arguments item_id {A} _.
Arguments item_created_at {A} _.
Arguments item {A} _.

Definition pop_id {A} (d : Doc A) : Item A :=
  mkItem (ObjectId.str (_id d)) (created_at d) (fields d).

(** ** A small marketplace, for evaluating the handlers

    Two users, one active listing of the first, and nothing else. *)

Definition alice : string := "64b7f0c2a1d3e4f5a6b70001".
Definition bob : string := "64b7f0c2a1d3e4f5a6b70002".
Definition bicycle : string := "64b7f0c2a1d3e4f5a6b70003".

Definition market : World :=
  {| db :=
       {| db_user :=
            [ mkDoc (ObjectId.Oid alice) 1700000000000
                (User.mk "Alice" "a@x.com" "5e88" None None true);
              mkDoc (ObjectId.Oid bob) 1700000001000
                (User.mk "Bob" "b@x.com" "17f8" None None true) ];
          db_listing :=
            [ mkDoc (ObjectId.Oid bicycle) 1700000002000
                (Listing.mk alice "Road bike" "Ridden twice" 120 "sports" "sale" None [] "active") ];
          db_message := [];
          db_saved := [] |};
     log := [] |}.

Definition hello : SendMessageBody.t :=
  SendMessageBody.mk bicycle bob alice "Is it still for sale?".
Definition reply : SendMessageBody.t :=
  SendMessageBody.mk bicycle alice bob "Yes, it is.".

(** The market after [hello] and [reply] were sent within the same
    millisecond through two server processes: the message stored second
    carries the smaller identifier. *)
Definition chatty_market : World :=
  {| db :=
       {| db_user := db_user (db market);
          db_listing := db_listing (db market);
          db_message :=
            [ mkDoc (ObjectId.Oid "64b7f0c3ffeeddccbb000001") 1700000003000
                (Message.mk bicycle bob alice "Is it still for sale?" false);
              mkDoc (ObjectId.Oid "64b7f0c31122334455000001") 1700000003000
                (Message.mk bicycle alice bob "Yes, it is." false) ];
          db_saved := [] |};
     log := [Reads "listing"; Writes "message"; Reads "listing"; Writes "message"] |}.

(** Stand-ins for the library functions the handlers are given, for
    evaluating them on requests that do not depend on their choice. *)
Definition accept (s : string) : option string := Some s.
Definition no_digest (text : string) : string := "".

(** A stand-in for the engine of the store, for evaluating the handlers on
    queries whose pattern lies in the modelled fragment, where the engine is
    not consulted. *)
Definition fragment_only : Pcre.Engine := λ _ _, None.

(** Twenty-four spaces. *)
Definition blank : string := string_of_list_ascii (repeat " "%char 24).

(** The two messages of [chatty_market], as get thread returns them. *)
Definition chat_items : list (Item Message.t) :=
  [ mkItem "64b7f0c3ffeeddccbb000001" 1700000003000
      (Message.mk bicycle bob alice "Is it still for sale?" false);
    mkItem "64b7f0c31122334455000001" 1700000003000
      (Message.mk bicycle alice bob "Yes, it is." false) ].

(** The listing of [market], as list listings returns it. *)
Definition bicycle_item : Item Listing.t :=
  mkItem bicycle 1700000002000
    (Listing.mk alice "Road bike" "Ridden twice" 120 "sports" "sale" None [] "active").

(** A text of 5001 characters. *)
Definition long_text : string := string_of_list_ascii (repeat "x"%char (Z.to_nat 5001)).

(** An identifier in the documented format under which nothing is stored. *)
Definition nobody : string := "64b7f0c2a1d3e4f5a6b7ffff".

(** What the persistence layer assigns to the first and to the second
    document inserted in the examples. *)
Definition first_insert : Assigned :=
  mkAssigned (ObjectId.Oid "64b7f0c3ffeeddccbb000001") 1700000003000.
Definition second_insert : Assigned :=
  mkAssigned (ObjectId.Oid "64b7f0c31122334455000001") 1700000004000.

(** A stand-in digest that keeps distinct texts distinct. *)
Definition marked (text : string) : string := String.append "digest of " text.

(** A validator that accepts every string and returns it in lower case, as
    a validator that normalises what it accepts does. *)
Definition fold_case (s : string) : option string := Some (lower_str s).

(** ** The handlers *)

(** [Query(default, ge=.., le=..)]: the framework reads a bounded integer
    query parameter before it calls the handler. *)
Definition Query (default ge le : Z) (parameter : string) (supplied : option Z) : M Z :=
  match supplied with
  | None => mret default
  | Some n =>
      if (ge <=? n) && (n <=? le) then mret n
      else raise (RequestValidationError parameter)
  end.

(** The truth value of an optional string: [None] and the empty string are
    false. *)
Definition truthy (o : option string) : option string :=
  match o with
  | Some s => if String.eqb s "" then None else Some s
  | None => None
  end.

(** [x in [...]] on strings *)
Definition elem (x : string) (l : list string) : bool := existsb (String.eqb x) l.

Definition MessageSchema (listing_id from_user_id to_user_id content : string)
    (read : bool) : M Message.t :=
  if len content <=? 5000
  then mret (Message.mk listing_id from_user_id to_user_id content read)
  else raise (ValidationError "Message").

Definition SavedSchema (user_id listing_id : string) : M Saved.t :=
  mret (Saved.mk user_id listing_id).

(** A validator applied to an optional field: [None] is accepted as it is. *)
Definition optional (validate : string → option string) (o : option string)
    : option (option string) :=
  match o with
  | None => Some None
  | Some s => Some <$> validate s
  end.

(** The handlers call four library functions, which are taken as they are:
    the digest of [hashlib]; the validators behind pydantic's [EmailStr] and
    [HttpUrl], which return the accepted value or refuse; and the constructor
    [ObjectId(s)] of [bson], which returns the identifier that a string
    denotes or refuses the string.  The store they query comes with its
    engine for the patterns outside the modelled fragment. *)

Section Handlers.

Set Default Proof Using "Type*".

Context `{Pcre.Engine}.

Variable sha256 : string → string.
Variable EmailStr : string → option string.
Variable HttpUrl : string → option string.
Variable ObjectId_of : string → option ObjectId.t.

(** [ObjectId.is_valid(s)]: false on the empty string, and otherwise
    whether [ObjectId(s)] accepts the string. *)
Definition is_valid (s : string) : bool :=
  negb (String.eqb s "")
  && match ObjectId_of s with Some _ => true | None => false end.

(** [ObjectId(s)] in a handler: a refusal is the exception [InvalidId]. *)
Definition ObjectId_new (s : string) : M ObjectId.t :=
  match ObjectId_of s with
  | Some o => mret o
  | None => raise InvalidId
  end.

(** [ObjectIdStr.validate(v)]: the string itself when [ObjectId(v)] accepts
    it, and the exception of status 400 otherwise. *)
Definition ObjectIdStr_validate (v : string) : M string :=
  match ObjectId_of v with
  | Some _ => mret v
  | None => raise (HTTPException 400 "Invalid id")
  end.

Definition UserSchema (name email password_hash : string)
    (location avatar_url : option string) (is_active : bool) : M User.t :=
  match EmailStr email, optional HttpUrl avatar_url with
  | Some email', Some avatar_url' =>
      mret (User.mk name email' password_hash avatar_url' location is_active)
  | _, _ => raise (ValidationError "User")
  end.

Definition ListingSchema (user_id title description : string) (price : float)
    (category listing_type : string) (location : option string)
    (images : list string) (status : string) : M Listing.t :=
  if (len title <=? 140) && (len description <=? 5000)
     && PrimFloat.leb 0 price
     && elem listing_type ["sale"; "service"; "rent"]
     && elem status ["active"; "sold"; "paused"]
  then
    match mapM HttpUrl images with
    | Some urls =>
        mret (Listing.mk user_id title description price category
                listing_type location urls status)
    | None => raise (ValidationError "Listing")
    end
  else raise (ValidationError "Listing").

Definition register (body : RegisterBody.t) (a : Assigned) : M Registered :=
  existing ← find_one user {[ "email" := Eq (VStr (RegisterBody.email body)) ]};
  match existing with
  | Some _ => raise (HTTPException 400 "Email already registered")
  | None =>
      u ← UserSchema (RegisterBody.name body) (RegisterBody.email body)
            (sha256 (RegisterBody.password body)) (RegisterBody.location body)
            None true;
      user_id ← create_document user u a;
      mret (mkRegistered user_id (User.name u) (User.email u))
  end.

Definition login (body : LoginBody.t) : M Registered :=
  found ← find_one user {[ "email" := Eq (VStr (LoginBody.email body)) ]};
  match found with
  | None => raise (HTTPException 401 "Invalid credentials")
  | Some u =>
      if negb (String.eqb (User.password_hash (fields u))
                 (sha256 (LoginBody.password body)))
      then raise (HTTPException 401 "Invalid credentials")
      else mret (mkRegistered (ObjectId.str (_id u))
                   (User.name (fields u)) (User.email (fields u)))
  end.

Definition list_listings (q category : option string) (limit : Z)
    : M (list (Item Listing.t)) :=
  let filter_q : gmap string cond := {[ "status" := Eq (VStr "active") ]} in
  let filter_q :=
    match truthy category with
    | Some category => <[ "category" := Eq (VStr category) ]> filter_q
    | None => filter_q
    end in
  let filter_q :=
    match truthy q with
    | Some q => <[ "title" := Regex q "i" ]> filter_q
    | None => filter_q
    end in
  docs ← Cursor.iterate (Cursor.limit limit (find listing filter_q));
  mret (List.map pop_id docs).

Definition create_listing (body : CreateListingBody.t) (a : Assigned) : M string :=
  if negb (is_valid (CreateListingBody.user_id body))
  then raise (HTTPException 400 "Invalid user id")
  else
    oid ← ObjectId_new (CreateListingBody.user_id body);
    owner ← find_one user {[ "_id" := Eq (VOid oid) ]};
    match owner with
    | None => raise (HTTPException 404 "User not found")
    | Some _ =>
        l ← ListingSchema
              (CreateListingBody.user_id body)
              (CreateListingBody.title body)
              (CreateListingBody.description body)
              (CreateListingBody.price body)
              (CreateListingBody.category body)
              (if elem (CreateListingBody.listing_type body) ["sale"; "service"; "rent"]
               then CreateListingBody.listing_type body else "sale")
              (CreateListingBody.location body)
              (default [] (CreateListingBody.images body))
              "active";
        create_document listing l a
    end.

Definition save_listing (body : SaveBody.t) (a : Assigned) : M SaveResponse :=
  if negb (is_valid (SaveBody.user_id body)
           && is_valid (SaveBody.listing_id body))
  then raise (HTTPException 400 "Invalid ids")
  else
    existing ← find_one saved
      {[ "user_id" := Eq (VStr (SaveBody.user_id body));
         "listing_id" := Eq (VStr (SaveBody.listing_id body)) ]};
    match existing with
    | Some _ => mret AlreadySaved
    | None =>
        s ← SavedSchema (SaveBody.user_id body) (SaveBody.listing_id body);
        saved_id ← create_document saved s a;
        mret (SavedAs saved_id)
    end.

Definition get_saved (user_id : string) : M (list (Item Saved.t)) :=
  if negb (is_valid user_id)
  then raise (HTTPException 400 "Invalid user id")
  else
    docs ← Cursor.iterate (find saved {[ "user_id" := Eq (VStr user_id) ]});
    mret (List.map pop_id docs).

Definition send_message (body : SendMessageBody.t) (a : Assigned) : M string :=
  if negb (is_valid (SendMessageBody.listing_id body)
           && is_valid (SendMessageBody.from_user_id body)
           && is_valid (SendMessageBody.to_user_id body))
  then raise (HTTPException 400 "Invalid ids")
  else
    oid ← ObjectId_new (SendMessageBody.listing_id body);
    found ← find_one listing {[ "_id" := Eq (VOid oid) ]};
    match found with
    | None => raise (HTTPException 404 "Listing not found")
    | Some _ =>
        msg ← MessageSchema
                (SendMessageBody.listing_id body)
                (SendMessageBody.from_user_id body)
                (SendMessageBody.to_user_id body)
                (SendMessageBody.content body)
                false;
        create_document message msg a
    end.

Definition get_thread (listing_id a b : string) (limit : Z)
    : M (list (Item Message.t)) :=
  if negb (is_valid listing_id && is_valid a && is_valid b)
  then raise (HTTPException 400 "Invalid ids")
  else
    docs ← Cursor.iterate
      (Cursor.limit limit
        (Cursor.sort "created_at" 1
          (find message
            {[ "listing_id" := Eq (VStr listing_id);
               "$or" := AnyOf
                 [ {[ "from_user_id" := VStr a; "to_user_id" := VStr b ]};
                   {[ "from_user_id" := VStr b; "to_user_id" := VStr a ]} ] ]})));
    mret (List.map pop_id docs).

(** ** The routes

    The two routes with a bounded [limit] parameter: the framework checks
    the parameter, answers 422 by itself when it is out of bounds, and calls
    the handler otherwise. *)

Definition GET_api_listings (q category : option string) (limit : option Z)
    : M (list (Item Listing.t)) :=
  limit ← Query 20 1 100 "limit" limit;
  list_listings q category limit.

Definition GET_api_messages_thread (listing_id a b : string) (limit : option Z)
    : M (list (Item Message.t)) :=
  limit ← Query 50 1 200 "limit" limit;
  get_thread listing_id a b limit.

(** ** Notions used to state the properties *)

(** The messages of one conversation: those about [listing_id] sent by [a]
    to [b] or by [b] to [a]. *)
Definition in_thread (listing_id a b : string) (d : Doc Message.t) : bool :=
  String.eqb (Message.listing_id (fields d)) listing_id
  && ((String.eqb (Message.from_user_id (fields d)) a
       && String.eqb (Message.to_user_id (fields d)) b)
      || (String.eqb (Message.from_user_id (fields d)) b
          && String.eqb (Message.to_user_id (fields d)) a)).

(** A condition that is not a pattern never makes the store fail. *)
Definition pattern_free (c : cond) : Prop :=
  match c with Regex _ _ => False | _ => True end.

(** The string [s] denotes the identifier of document [d]. *)
Definition refers_to {A} (s : string) (d : Doc A) : bool :=
  match ObjectId_of s with
  | Some o => ObjectId.eqb (_id d) o
  | None => false
  end.

(** The saved entry [d] is the one of user [user_id] for [listing_id]. *)
Definition saved_for (user_id listing_id : string) (d : Doc Saved.t) : bool :=
  String.eqb (Saved.user_id (fields d)) user_id
  && String.eqb (Saved.listing_id (fields d)) listing_id.

(** The request [body] with another listing type. *)
Definition with_listing_type (listing_type : string) (body : CreateListingBody.t)
    : CreateListingBody.t :=
  CreateListingBody.mk
    (CreateListingBody.user_id body)
    (CreateListingBody.title body)
    (CreateListingBody.description body)
    (CreateListingBody.price body)
    (CreateListingBody.category body)
    listing_type
    (CreateListingBody.location body)
    (CreateListingBody.images body).

(** The store refuses the pattern of the free-text query. *)
Definition pattern_refused (q : option string) : bool :=
  match truthy q with
  | Some p => Pcre.refused p "i"
  | None => false
  end.

(** The listings that the filter of list listings selects. *)
Definition selected (q category : option string) (d : Doc Listing.t) : bool :=
  String.eqb (Listing.status (fields d)) "active"
  && match truthy category with
     | Some c => String.eqb (Listing.category (fields d)) c
     | None => true
     end
  && match truthy q with
     | Some p => Pcre.test p "i" (Listing.title (fields d))
     | None => true
     end.

(** Stated after the specification: the title contains [q] as a substring,
    letter case apart. *)
Definition contains_ci (q title : string) : Prop :=
  ∃ before after : list ascii,
    List.map lower (chars title)
    = (before ++ List.map lower (chars q) ++ after)%list.

(** The user document [d] carries the email [e]. *)
Definition has_email (e : string) (d : Doc User.t) : bool :=
  String.eqb (User.email (fields d)) e.

(** The saved entry [d] belongs to user [user_id]. *)
Definition saved_by (user_id : string) (d : Doc Saved.t) : bool :=
  String.eqb (Saved.user_id (fields d)) user_id.

(** At most one saved entry per (user, listing) pair. *)
Definition pairs_unique (l : list (Doc Saved.t)) : Prop :=
  ∀ user_id listing_id,
    (length (List.filter (saved_for user_id listing_id) l) ≤ 1)%nat.

(** World [w'] is [w] after at most one read of the store: the database is
    the same and nothing was written. *)
Definition only_read (w w' : World) : Prop :=
  w' = w ∨ ∃ collection, w' = accessed (Reads collection) w.

(** Database [d'] is [d] with at most one document more, at the end of one
    collection: no stored document is changed, moved or removed. *)
Definition grown (d d' : Database) : Prop :=
  d' = d
  ∨ (∃ x, d' = with_documents user (db_user d ++ [x]) d)
  ∨ (∃ x, d' = with_documents listing (db_listing d ++ [x]) d)
  ∨ (∃ x, d' = with_documents message (db_message d ++ [x]) d)
  ∨ (∃ x, d' = with_documents saved (db_saved d ++ [x]) d).

(** The listing that create listing builds from a request whose image
    addresses the validator returned as [urls]. *)
Definition listing_of (body : CreateListingBody.t) (urls : list string) : Listing.t :=
  Listing.mk
    (CreateListingBody.user_id body)
    (CreateListingBody.title body)
    (CreateListingBody.description body)
    (CreateListingBody.price body)
    (CreateListingBody.category body)
    (if elem (CreateListingBody.listing_type body) ["sale"; "service"; "rent"]
     then CreateListingBody.listing_type body else "sale")
    (CreateListingBody.location body)
    urls
    "active".

(** The message that send message builds from a request. *)
Definition message_of (body : SendMessageBody.t) : Message.t :=
  Message.mk
    (SendMessageBody.listing_id body)
    (SendMessageBody.from_user_id body)
    (SendMessageBody.to_user_id body)
    (SendMessageBody.content body)
    false.

(** Oldest first. *)
Definition created_no_later {A} (x y : Item A) : Prop :=
  item_created_at x ≤ item_created_at y.

(** * Properties *)

Ltac unfold_monad :=
  unfold mbind, M_bind, mret, M_ret, raise, touch, get_db, put_db, accessed in *;
  cbn [fst snd db log] in *.

Ltac fresh_key := first [ reflexivity | by simplify_map_eq ].

Ltac read_fields :=
  unfold holds, holds_eq, doc_field, field,
    User_schema, Listing_schema, Message_schema, Saved_schema;
  cbn [String.eqb Ascii.eqb Bool.eqb meets value_eqb].

Ltac solve_pattern_free :=
  repeat first
    [ apply map_Forall_empty
    | apply map_Forall_singleton; exact I
    | apply map_Forall_insert_2; [exact I |] ].

(** ** The monad and the queries *)

Lemma run_unfold `{Schema A} (c : Collection A) (f : gmap string cond) (w : World) :
  run c f w =
  if bool_decide (map_Exists (λ _ c, rejected c = true) f)
  then (Raise OperationFailure, accessed (Reads (collection_name c)) w)
  else (Ok (List.filter (matches f) (documents c (db w))),
        accessed (Reads (collection_name c)) w).
Proof.
  unfold run. unfold_monad.
  repeat case_bool_decide; reflexivity.
Qed.

Lemma run_pattern_free `{Schema A} (c : Collection A) (f : gmap string cond) (w : World) :
  map_Forall (λ _, pattern_free) f →
  run c f w = (Ok (List.filter (matches f) (documents c (db w))),
               accessed (Reads (collection_name c)) w).
Proof.
  intros Hf. rewrite run_unfold.
  rewrite bool_decide_eq_false_2; [reflexivity |].
  intros (k & x & Hk & Hx). specialize (Hf k x Hk).
  destruct x; simpl in Hf, Hx; try discriminate. contradiction.
Qed.

Lemma matches_insert `{Schema A} (f : gmap string cond) (k : string) (c : cond) (d : Doc A) :
  f !! k = None →
  matches (<[k := c]> f) d = holds d k c && matches f d.
Proof.
  intros Hk. unfold matches.
  destruct (holds d k c) eqn:Hc; cbn [andb].
  - apply bool_decide_ext. rewrite (map_Forall_insert _ _ _ _ Hk).
    split; [by intros [_ Hf] | by intros Hf].
  - apply bool_decide_eq_false_2. rewrite (map_Forall_insert _ _ _ _ Hk).
    intros [Hc' _]. by rewrite Hc in Hc'.
Qed.

Lemma matches_empty `{Schema A} (d : Doc A) : matches ∅ d = true.
Proof. apply bool_decide_eq_true_2, map_Forall_empty. Qed.

Lemma matches_singleton `{Schema A} (k : string) (c : cond) (d : Doc A) :
  matches {[k := c]} d = holds d k c.
Proof.
  rewrite <- insert_empty, matches_insert, matches_empty by apply lookup_empty.
  apply andb_true_r.
Qed.

Lemma holds_all_insert `{Schema A} (alt : gmap string value) (k : string) (v : value) (d : Doc A) :
  alt !! k = None →
  holds_all d (<[k := v]> alt) = holds_eq d k v && holds_all d alt.
Proof.
  intros Hk. unfold holds_all.
  destruct (holds_eq d k v) eqn:Hv; cbn [andb].
  - apply bool_decide_ext. rewrite (map_Forall_insert _ _ _ _ Hk).
    split; [by intros [_ Hf] | by intros Hf].
  - apply bool_decide_eq_false_2. rewrite (map_Forall_insert _ _ _ _ Hk).
    intros [Hv' _]. by rewrite Hv in Hv'.
Qed.

Lemma holds_all_empty `{Schema A} (d : Doc A) : holds_all d ∅ = true.
Proof. apply bool_decide_eq_true_2, map_Forall_empty. Qed.

Lemma holds_all_singleton `{Schema A} (k : string) (v : value) (d : Doc A) :
  holds_all d {[k := v]} = holds_eq d k v.
Proof.
  rewrite <- insert_empty, holds_all_insert, holds_all_empty by apply lookup_empty.
  apply andb_true_r.
Qed.

(** *** What the filters of the handlers select *)

Lemma thread_filter_matches (listing_id a b : string) (d : Doc Message.t) :
  matches
    {[ "listing_id" := Eq (VStr listing_id);
       "$or" := AnyOf
         [ {[ "from_user_id" := VStr a; "to_user_id" := VStr b ]};
           {[ "from_user_id" := VStr b; "to_user_id" := VStr a ]} ] ]} d
  = String.eqb (Message.listing_id (fields d)) listing_id
    && ((String.eqb (Message.from_user_id (fields d)) a
         && String.eqb (Message.to_user_id (fields d)) b)
        || (String.eqb (Message.from_user_id (fields d)) b
            && String.eqb (Message.to_user_id (fields d)) a)).
Proof.
  rewrite matches_insert by fresh_key.
  rewrite matches_singleton.
  cbn [holds existsb].
  rewrite !holds_all_insert by fresh_key.
  rewrite !holds_all_singleton.
  read_fields.
  rewrite orb_false_r. reflexivity.
Qed.

Lemma thread_query (listing_id a b : string) (n : Z) (w : World) :
  Cursor.iterate
    (Cursor.limit n
      (Cursor.sort "created_at" 1
        (find message
          {[ "listing_id" := Eq (VStr listing_id);
             "$or" := AnyOf
               [ {[ "from_user_id" := VStr a; "to_user_id" := VStr b ]};
                 {[ "from_user_id" := VStr b; "to_user_id" := VStr a ]} ] ]}))) w
  = (Ok (take_limit n
           (stable_sort (sort_leb "created_at" 1)
              (List.filter (in_thread listing_id a b) (db_message (db w))))),
     accessed (Reads "message") w).
Proof.
  unfold Cursor.iterate, Cursor.limit, Cursor.sort, find.
  cbn [source query ordering bound].
  unfold mbind, M_bind. rewrite run_pattern_free by solve_pattern_free.
  unfold mret, M_ret. cbn [documents message collection_name].
  rewrite (filter_ext _ _ (thread_filter_matches listing_id a b)). reflexivity.
Qed.

Lemma in_thread_sym (listing_id a b : string) (d : Doc Message.t) :
  in_thread listing_id a b d = in_thread listing_id b a d.
Proof. unfold in_thread. f_equal. apply orb_comm. Qed.

(** C3. For every listing identifier and pair of user identifiers, get
    thread answers the same whichever of the two users is named first: the
    same messages in the same order (or the same failure, when an identifier
    is refused), with the same access to the store. *)
Theorem get_thread_symmetric (listing_id u1 u2 : string) (limit : Z) (w : World) :
  get_thread listing_id u1 u2 limit w = get_thread listing_id u2 u1 limit w.
Proof.
  unfold get_thread, mbind, M_bind.
  replace (is_valid listing_id && is_valid u2 && is_valid u1)
    with (is_valid listing_id && is_valid u1 && is_valid u2)
    by (rewrite <- !andb_assoc; f_equal; apply andb_comm).
  destruct (negb _); [reflexivity |].
  rewrite !thread_query.
  rewrite (filter_ext _ _ (in_thread_sym listing_id u1 u2)). reflexivity.
Qed.

(** ** Sorting *)

Section Sorting.
Context {A : Type} (leb : A → A → bool) (R : A → A → Prop).
Hypothesis leb_sound : ∀ x y, leb x y = true → R x y.
Hypothesis leb_total : ∀ x y, leb x y = false → R y x.

Lemma insert_sorted_HdRel (a x : A) (l : list A) :
  R a x → HdRel R a l → HdRel R a (insert_sorted leb x l).
Proof.
  intros Hax Hal. destruct l as [| y l]; cbn.
  - by constructor.
  - destruct (leb x y); constructor; [done |]. by inversion Hal.
Qed.

Lemma insert_sorted_Sorted (x : A) (l : list A) :
  Sorted R l → Sorted R (insert_sorted leb x l).
Proof.
  induction 1 as [| y l Hl IH Hy]; cbn.
  - by repeat constructor.
  - destruct (leb x y) eqn:Hxy.
    + constructor; [by constructor |]. constructor. by apply leb_sound.
    + constructor; [done |]. apply insert_sorted_HdRel; [| done].
      by apply leb_total.
Qed.

Lemma stable_sort_Sorted (l : list A) : Sorted R (stable_sort leb l).
Proof.
  induction l as [| x l IH]; cbn; [constructor |].
  by apply insert_sorted_Sorted.
Qed.

End Sorting.

Lemma Sorted_firstn {A} (R : A → A → Prop) (n : nat) (l : list A) :
  Sorted R l → Sorted R (firstn n l).
Proof.
  intros Hl. revert n. induction Hl as [| x l Hl IH Hx]; intros [| n]; cbn;
    try constructor; [apply IH |].
  destruct Hx; destruct n; cbn; by constructor.
Qed.

Lemma Sorted_take_limit {A} (R : A → A → Prop) (n : Z) (l : list A) :
  Sorted R l → Sorted R (take_limit n l).
Proof.
  intros Hl. unfold take_limit. destruct (n =? 0); [done |].
  by apply Sorted_firstn.
Qed.

Lemma Sorted_pop_id {A} (l : list (Doc A)) :
  Sorted (λ x y, created_at x ≤ created_at y) l →
  Sorted created_no_later (List.map pop_id l).
Proof.
  induction 1 as [| x l Hl IH Hx]; cbn; constructor; [done |].
  destruct Hx; cbn; by constructor.
Qed.

Lemma sort_by_created_at_Sorted `{Schema A} (l : list (Doc A)) :
  Sorted (λ x y, created_at x ≤ created_at y)
    (stable_sort (sort_leb "created_at" 1) l).
Proof.
  apply stable_sort_Sorted; intros x y; unfold sort_leb, doc_field; cbn; lia.
Qed.

(** C1, as amended.  For well-formed identifiers, get thread returns its
    messages sorted ascending by creation timestamp (oldest first), after
    one read of the store.  Nothing is promised about the order of messages
    with equal timestamps. *)
Theorem get_thread_sorted_by_created_at
    (listing_id a b : string) (limit : Z) (w : World) :
  is_valid listing_id = true →
  is_valid a = true →
  is_valid b = true →
  ∃ items,
    get_thread listing_id a b limit w = (Ok items, accessed (Reads "message") w)
    ∧ Sorted created_no_later items.
Proof.
  intros HL Ha Hb. unfold get_thread, mbind, M_bind.
  rewrite HL, Ha, Hb. cbn [andb negb].
  rewrite thread_query. unfold mret, M_ret.
  eexists; split; [reflexivity |].
  apply Sorted_pop_id, Sorted_take_limit, sort_by_created_at_Sorted.
Qed.

(** ** Lookups by identifier and by pair *)

Lemma find_one_pattern_free `{Schema A} (c : Collection A) (f : gmap string cond) (w : World) :
  map_Forall (λ _, pattern_free) f →
  find_one c f w = (Ok (head (List.filter (matches f) (documents c (db w)))),
                    accessed (Reads (collection_name c)) w).
Proof.
  intros Hf. unfold find_one, mbind, M_bind. by rewrite run_pattern_free.
Qed.

Lemma is_valid_denotes (s : string) :
  is_valid s = true → ∃ o, ObjectId_of s = Some o.
Proof.
  unfold is_valid. intros Hs. apply andb_true_iff in Hs as [_ Hs].
  destruct (ObjectId_of s) as [o |]; [by exists o | discriminate].
Qed.

Lemma by_id_matches `{Schema A} (o : ObjectId.t) (d : Doc A) :
  matches {[ "_id" := Eq (VOid o) ]} d = ObjectId.eqb (_id d) o.
Proof. rewrite matches_singleton. reflexivity. Qed.

(** After the guard, [ObjectId(s)] followed by a lookup under [_id]. *)
Lemma find_one_by_id `{Schema A} {B : Type} (c : Collection A) (s : string)
    (k : option (Doc A) → M B) (w : World) :
  is_valid s = true →
  (oid ← ObjectId_new s; found ← find_one c {[ "_id" := Eq (VOid oid) ]}; k found) w
  = k (head (List.filter (refers_to s) (documents c (db w))))
      (accessed (Reads (collection_name c)) w).
Proof.
  intros Hs. destruct (is_valid_denotes s Hs) as [o Ho].
  unfold mbind at 1, M_bind at 1, ObjectId_new. rewrite Ho.
  unfold mret at 1, M_ret at 1. unfold mbind at 1, M_bind at 1.
  rewrite find_one_pattern_free by solve_pattern_free.
  replace (List.filter (matches {[ "_id" := Eq (VOid o) ]}) (documents c (db w)))
    with (List.filter (refers_to s) (documents c (db w))); [done |].
  apply filter_ext. intros d. unfold refers_to. by rewrite Ho, by_id_matches.
Qed.

Lemma filter_none {A} (p : A → bool) (l : list A) :
  Forall (λ x, p x = false) l → List.filter p l = [].
Proof.
  induction 1 as [| x l Hx _ IH]; cbn; [done |]. by rewrite Hx.
Qed.

(** C6. A send message request with three well-formed identifiers whose
    listing identifier is that of no stored listing fails with 404
    (NotFound) after one read of the listings: the database, and with it
    the message collection, is left as it was and nothing is written. *)
Theorem send_message_listing_not_found
    (body : SendMessageBody.t) (a : Assigned) (w : World) :
  is_valid (SendMessageBody.listing_id body) = true →
  is_valid (SendMessageBody.from_user_id body) = true →
  is_valid (SendMessageBody.to_user_id body) = true →
  Forall (λ d, refers_to (SendMessageBody.listing_id body) d = false)
    (db_listing (db w)) →
  ∃ w',
    send_message body a w = (Raise (HTTPException 404 "Listing not found"), w')
    ∧ db_message (db w') = db_message (db w)
    ∧ db w' = db w
    ∧ log w' = (log w ++ [Reads "listing"])%list.
Proof.
  intros HL Hf Ht Hnone. unfold send_message.
  rewrite HL, Hf, Ht. cbn [andb negb].
  rewrite (find_one_by_id _ _ _ _ HL).
  cbn [documents listing collection_name].
  rewrite (filter_none _ _ Hnone). cbn [head].
  eexists. split; [reflexivity |]. by repeat split.
Qed.

Lemma get_thread_rejects (listing_id a b : string) (limit : Z) (w : World) :
  is_valid listing_id = false
  ∨ is_valid a = false
  ∨ is_valid b = false →
  get_thread listing_id a b limit w = (Raise (HTTPException 400 "Invalid ids"), w).
Proof.
  intros Hbad. unfold get_thread.
  destruct Hbad as [-> | [-> | ->]]; by rewrite ?andb_false_r.
Qed.

(** At the route of get thread the framework reads [limit] before the
    handler runs: a limit out of bounds is answered 422 whatever the
    identifiers are, and in either case the store is not touched. *)
Lemma GET_api_messages_thread_rejects
    (listing_id a b : string) (limit : option Z) (w : World) :
  is_valid listing_id = false
  ∨ is_valid a = false
  ∨ is_valid b = false →
  GET_api_messages_thread listing_id a b limit w
  = (Raise (match limit with
            | Some n =>
                if (1 <=? n) && (n <=? 200) then HTTPException 400 "Invalid ids"
                else RequestValidationError "limit"
            | None => HTTPException 400 "Invalid ids"
            end), w).
Proof.
  intros Hbad. unfold GET_api_messages_thread, Query, mbind, M_bind.
  destruct limit as [n |]; [destruct (_ && _) |];
    unfold mret, M_ret, raise; by rewrite ?get_thread_rejects.
Qed.

(** Each handler that takes an identifier (create listing, save listing,
    list saved, send message, get thread) answers a string that
    [ObjectId.is_valid] refuses with 400 and leaves the world as it was: the
    database unchanged and no access to the store logged. *)
Lemma guards_reject_invalid :
  (∀ body a w,
     is_valid (CreateListingBody.user_id body) = false →
     create_listing body a w
     = (Raise (HTTPException 400 "Invalid user id"), w))
  ∧ (∀ body a w,
       is_valid (SaveBody.user_id body) = false
       ∨ is_valid (SaveBody.listing_id body) = false →
       save_listing body a w = (Raise (HTTPException 400 "Invalid ids"), w))
  ∧ (∀ user_id w,
       is_valid user_id = false →
       get_saved user_id w = (Raise (HTTPException 400 "Invalid user id"), w))
  ∧ (∀ body a w,
       is_valid (SendMessageBody.listing_id body) = false
       ∨ is_valid (SendMessageBody.from_user_id body) = false
       ∨ is_valid (SendMessageBody.to_user_id body) = false →
       send_message body a w = (Raise (HTTPException 400 "Invalid ids"), w))
  ∧ (∀ listing_id a b limit w,
       is_valid listing_id = false
       ∨ is_valid a = false
       ∨ is_valid b = false →
       get_thread listing_id a b limit w
       = (Raise (HTTPException 400 "Invalid ids"), w)).
Proof.
  repeat split.
  - intros body a w Hbad. unfold create_listing. by rewrite Hbad.
  - intros body a w Hbad. unfold save_listing.
    destruct Hbad as [-> | ->]; by rewrite ?andb_false_r.
  - intros user_id w Hbad. unfold get_saved. by rewrite Hbad.
  - intros body a w Hbad. unfold send_message.
    destruct Hbad as [-> | [-> | ->]]; by rewrite ?andb_false_r.
  - intros listing_id a b limit w Hbad. by apply get_thread_rejects.
Qed.

Lemma saved_filter_matches (user_id listing_id : string) (d : Doc Saved.t) :
  matches {[ "user_id" := Eq (VStr user_id); "listing_id" := Eq (VStr listing_id) ]} d
  = saved_for user_id listing_id d.
Proof.
  rewrite matches_insert by fresh_key. rewrite matches_singleton. reflexivity.
Qed.

Lemma find_one_saved (user_id listing_id : string) (w : World) :
  find_one saved
    {[ "user_id" := Eq (VStr user_id); "listing_id" := Eq (VStr listing_id) ]} w
  = (Ok (head (List.filter (saved_for user_id listing_id) (db_saved (db w)))),
     accessed (Reads "saved") w).
Proof.
  rewrite find_one_pattern_free by solve_pattern_free.
  cbn [documents saved collection_name].
  by rewrite (filter_ext _ _ (saved_filter_matches user_id listing_id)).
Qed.

Lemma saved_for_refl (user_id listing_id : string) (o : ObjectId.t) (t : Z) :
  saved_for user_id listing_id (mkDoc o t (Saved.mk user_id listing_id)) = true.
Proof. unfold saved_for. cbn. by rewrite !String.eqb_refl. Qed.

(** C4. Saving a well-formed (user, listing) pair that is not saved yet,
    twice in a row: the first call answers with the identifier of the entry
    it stores, the second answers [already_saved] (a different answer, and
    not a failure) and leaves the database as it is, and the store then
    holds exactly one saved entry for the pair, the one the first call
    created. *)
Theorem save_listing_twice (body : SaveBody.t) (a1 a2 : Assigned) (w : World) :
  is_valid (SaveBody.user_id body) = true →
  is_valid (SaveBody.listing_id body) = true →
  List.filter (saved_for (SaveBody.user_id body) (SaveBody.listing_id body))
    (db_saved (db w)) = [] →
  ∃ w1 w2,
    save_listing body a1 w = (Ok (SavedAs (ObjectId.str (new_id a1))), w1)
    ∧ save_listing body a2 w1 = (Ok AlreadySaved, w2)
    ∧ SavedAs (ObjectId.str (new_id a1)) ≠ AlreadySaved
    ∧ db w2 = db w1
    ∧ List.filter (saved_for (SaveBody.user_id body) (SaveBody.listing_id body))
        (db_saved (db w2))
      = [mkDoc (new_id a1) (now a1)
           (Saved.mk (SaveBody.user_id body) (SaveBody.listing_id body))].
Proof.
  intros Hu Hl Hnew.
  assert (Hafter :
    List.filter (saved_for (SaveBody.user_id body) (SaveBody.listing_id body))
      (db_saved (db w) ++
         [mkDoc (new_id a1) (now a1)
            (Saved.mk (SaveBody.user_id body) (SaveBody.listing_id body))])
    = [mkDoc (new_id a1) (now a1)
         (Saved.mk (SaveBody.user_id body) (SaveBody.listing_id body))]).
  { rewrite List.filter_app, Hnew. cbn [List.filter app].
    by rewrite saved_for_refl. }
  do 2 eexists. split; [| split].
  - unfold save_listing. rewrite Hu, Hl. cbn [andb negb].
    unfold mbind at 1, M_bind at 1. rewrite find_one_saved, Hnew. cbn [head].
    unfold SavedSchema, create_document. unfold_monad.
    cbn [documents with_documents saved collection_name]. reflexivity.
  - unfold save_listing. rewrite Hu, Hl. cbn [andb negb].
    unfold mbind at 1, M_bind at 1. rewrite find_one_saved.
    cbn [db db_saved]. rewrite Hafter. cbn [head]. reflexivity.
  - cbn [db db_saved accessed]. by repeat split.
Qed.

(** ** Registration and listing creation *)

Lemma head_filter_Exists {A} (p : A → bool) (l : list A) :
  Exists (λ x, p x = true) l → ∃ x, head (List.filter p l) = Some x ∧ p x = true.
Proof.
  induction l as [| y l IH]; intros Hex; [by inversion Hex |].
  cbn. destruct (p y) eqn:Hy; [by exists y |].
  apply IH. inversion Hex; subst; [congruence | done].
Qed.

Lemma by_email_matches (e : string) (d : Doc User.t) :
  matches {[ "email" := Eq (VStr e) ]} d = String.eqb (User.email (fields d)) e.
Proof. rewrite matches_singleton. reflexivity. Qed.

(** C8, as amended.  Registering with an email that a stored user already
    has fails with status 400 and the detail "Email already registered",
    after one read of the users: no user record is inserted and nothing is
    written.  (400 is also the status that a malformed identifier is
    answered with.) *)
Theorem register_duplicate_email (body : RegisterBody.t) (a : Assigned) (w : World) :
  Exists (λ d, User.email (fields d) = RegisterBody.email body) (db_user (db w)) →
  ∃ w',
    register body a w
    = (Raise (HTTPException 400 "Email already registered"), w')
    ∧ db w' = db w
    ∧ log w' = (log w ++ [Reads "user"])%list.
Proof.
  intros Hdup. unfold register, mbind, M_bind.
  rewrite find_one_pattern_free by solve_pattern_free.
  cbn [documents user collection_name].
  rewrite (filter_ext _ _ (by_email_matches (RegisterBody.email body))).
  destruct (head_filter_Exists
              (λ d, String.eqb (User.email (fields d)) (RegisterBody.email body))
              (db_user (db w))) as (d & -> & _).
  { eapply Exists_impl; [exact Hdup |]. intros d ->. apply String.eqb_refl. }
  eexists. by repeat split.
Qed.

Lemma elem_In (x : string) (l : list string) : elem x l = true ↔ In x l.
Proof.
  unfold elem. rewrite existsb_exists. split.
  - intros (y & Hy & Heq). apply String.eqb_eq in Heq. by subst.
  - intros Hx. exists x. split; [done |]. apply String.eqb_refl.
Qed.

Lemma create_listing_stores (body : CreateListingBody.t) (a : Assigned) (w : World)
    (urls : list string) :
  is_valid (CreateListingBody.user_id body) = true →
  Exists (λ d, refers_to (CreateListingBody.user_id body) d = true) (db_user (db w)) →
  len (CreateListingBody.title body) ≤ 140 →
  len (CreateListingBody.description body) ≤ 5000 →
  PrimFloat.leb 0 (CreateListingBody.price body) = true →
  mapM HttpUrl (default [] (CreateListingBody.images body)) = Some urls →
  create_listing body a w
  = (Ok (ObjectId.str (new_id a)),
     {| db :=
          with_documents listing
            (db_listing (db w) ++
               [mkDoc (new_id a) (now a)
                  (Listing.mk
                     (CreateListingBody.user_id body)
                     (CreateListingBody.title body)
                     (CreateListingBody.description body)
                     (CreateListingBody.price body)
                     (CreateListingBody.category body)
                     (if elem (CreateListingBody.listing_type body)
                           ["sale"; "service"; "rent"]
                      then CreateListingBody.listing_type body else "sale")
                     (CreateListingBody.location body)
                     urls
                     "active")])
            (db w);
        log := (log w ++ [Reads "user"] ++ [Writes "listing"])%list |}).
Proof.
  intros Hid Howner Htitle Hdescr Hprice Hurls.
  unfold create_listing. rewrite Hid. cbn [negb].
  rewrite (find_one_by_id _ _ _ _ Hid).
  destruct (head_filter_Exists _ _ Howner) as (owner & Hhead & _).
  cbn [documents user collection_name]. rewrite Hhead.
  unfold ListingSchema.
  apply Z.leb_le in Htitle, Hdescr. rewrite Htitle, Hdescr, Hprice, Hurls.
  cbn [andb].
  assert (Hnorm :
    elem (if elem (CreateListingBody.listing_type body) ["sale"; "service"; "rent"]
          then CreateListingBody.listing_type body else "sale")
      ["sale"; "service"; "rent"] = true).
  { destruct (elem (CreateListingBody.listing_type body) _) eqn:Hlt; [done | reflexivity]. }
  rewrite Hnorm.
  cbn [elem existsb String.eqb Ascii.eqb Bool.eqb orb andb].
  unfold create_document. unfold_monad.
  cbn [documents with_documents listing collection_name].
  by rewrite <- app_assoc.
Qed.

(** C9. A create listing request whose listing type is not sale, service
    or rent is treated exactly as the same request with listing type sale:
    it is never refused on account of its listing type.  When the owner
    identifier is well formed and is that of a stored user, and the other
    fields are ones the listing schema accepts, the request stores one new
    listing, after the listings already there; its listing type is the
    supplied one when that is sale, service or rent, and sale otherwise. *)
Theorem create_listing_normalises_listing_type
    (body : CreateListingBody.t) (a : Assigned) (w : World) :
  (¬ In (CreateListingBody.listing_type body) ["sale"; "service"; "rent"] →
   create_listing body a w
   = create_listing (with_listing_type "sale" body) a w)
  ∧ ∀ urls,
      is_valid (CreateListingBody.user_id body) = true →
      Exists (λ d, refers_to (CreateListingBody.user_id body) d = true)
        (db_user (db w)) →
      len (CreateListingBody.title body) ≤ 140 →
      len (CreateListingBody.description body) ≤ 5000 →
      PrimFloat.leb 0 (CreateListingBody.price body) = true →
      mapM HttpUrl (default [] (CreateListingBody.images body)) = Some urls →
      ∃ stored w',
        create_listing body a w = (Ok (ObjectId.str (new_id a)), w')
        ∧ db_listing (db w')
          = (db_listing (db w) ++ [mkDoc (new_id a) (now a) stored])%list
        ∧ (In (CreateListingBody.listing_type body) ["sale"; "service"; "rent"] →
           Listing.listing_type stored = CreateListingBody.listing_type body)
        ∧ (¬ In (CreateListingBody.listing_type body) ["sale"; "service"; "rent"] →
           Listing.listing_type stored = "sale").
Proof.
  split.
  - intros Hout. unfold create_listing, with_listing_type.
    cbn [CreateListingBody.user_id CreateListingBody.title
         CreateListingBody.description CreateListingBody.price
         CreateListingBody.category CreateListingBody.listing_type
         CreateListingBody.location CreateListingBody.images].
    destruct (elem (CreateListingBody.listing_type body) _) eqn:Hlt;
      [by apply elem_In in Hlt | reflexivity].
  - intros urls Hid Howner Htitle Hdescr Hprice Hurls.
    rewrite (create_listing_stores _ _ _ _ Hid Howner Htitle Hdescr Hprice Hurls).
    do 2 eexists. split; [reflexivity |]. split; [reflexivity |].
    cbn [Listing.listing_type].
    destruct (elem (CreateListingBody.listing_type body) _) eqn:Hlt; split;
      try done.
    + intros Hout. by apply elem_In in Hlt.
    + intros Hin. apply elem_In in Hin. congruence.
Qed.

(** ** Listing search *)

Lemma exists_insert_pattern_free (P : cond → bool) (f : gmap string cond)
    (k : string) (c : cond) :
  f !! k = None →
  (∀ c, pattern_free c → P c = false) →
  map_Forall (λ _, pattern_free) f →
  bool_decide (map_Exists (λ _ c, P c = true) (<[k := c]> f)) = P c.
Proof.
  intros Hk HP Hf. destruct (P c) eqn:Hc.
  - apply bool_decide_eq_true_2. by apply map_Exists_insert_2_1.
  - apply bool_decide_eq_false_2. rewrite (map_Exists_insert _ _ _ _ Hk).
    intros [Hc' | (j & x & Hj & Hx)]; [congruence |].
    rewrite (HP x) in Hx; [discriminate |]. by apply (Hf j).
Qed.

Lemma run_with_pattern `{Schema A} (c : Collection A) (f : gmap string cond)
    (k p o : string) (w : World) :
  f !! k = None →
  map_Forall (λ _, pattern_free) f →
  run c (<[k := Regex p o]> f) w
  = (if Pcre.refused p o then Raise OperationFailure
     else Ok (List.filter (matches (<[k := Regex p o]> f)) (documents c (db w))),
     accessed (Reads (collection_name c)) w).
Proof.
  intros Hk Hf. rewrite run_unfold.
  rewrite (exists_insert_pattern_free rejected); try done; try (by intros []).
  cbn [rejected]. by destruct (Pcre.refused p o).
Qed.

Lemma search_empty_pattern (ci : bool) (s : string) : Pcre.search ci [] s = true.
Proof. unfold Pcre.search. by destruct (chars s). Qed.

(** A pattern of the fragment is evaluated by the model, not by the engine
    of the store. *)
Lemma test_compiled (p o : string) (r : list Pcre.atom) (s : string) :
  Pcre.compile p o = Pcre.Compiled r →
  Pcre.refused p o = false ∧ Pcre.test p o s = Pcre.search (Pcre.caseless o) r s.
Proof. unfold Pcre.refused, Pcre.test. by intros ->. Qed.

Lemma listing_filter_matches (q category : option string) (d : Doc Listing.t) :
  matches
    (let filter_q : gmap string cond := {[ "status" := Eq (VStr "active") ]} in
     let filter_q :=
       match truthy category with
       | Some category => <[ "category" := Eq (VStr category) ]> filter_q
       | None => filter_q
       end in
     match truthy q with
     | Some q => <[ "title" := Regex q "i" ]> filter_q
     | None => filter_q
     end) d
  = selected q category d.
Proof.
  cbv zeta. unfold selected.
  destruct (truthy category) as [c |], (truthy q) as [p |];
    repeat (rewrite matches_insert by fresh_key);
    rewrite matches_singleton; read_fields;
    repeat match goal with
           | |- context [String.eqb ?x ?y] => destruct (String.eqb x y)
           | |- context [Pcre.test ?p ?o ?t] => destruct (Pcre.test p o t)
           end; reflexivity.
Qed.

Lemma list_listings_unfold (q category : option string) (limit : Z) (w : World) :
  list_listings q category limit w
  = (if pattern_refused q then Raise OperationFailure
     else Ok (List.map pop_id
                (take_limit limit
                   (List.filter (selected q category) (db_listing (db w))))),
     accessed (Reads "listing") w).
Proof.
  pose proof (listing_filter_matches q category) as Hsel.
  unfold list_listings, Cursor.iterate, Cursor.limit, find, pattern_refused in *.
  cbv zeta in *. cbn [source query ordering bound].
  unfold mbind, M_bind.
  destruct (truthy q) as [p |].
  - rewrite run_with_pattern.
    + cbn [documents listing collection_name].
      destruct (Pcre.refused p "i") eqn:Hp; try reflexivity.
      unfold mret, M_ret. rewrite (filter_ext _ _ Hsel). reflexivity.
    + destruct (truthy category); fresh_key.
    + destruct (truthy category); solve_pattern_free.
  - rewrite run_pattern_free by (destruct (truthy category); solve_pattern_free).
    cbn [documents listing collection_name].
    unfold mret, M_ret. rewrite (filter_ext _ _ Hsel). reflexivity.
Qed.

(** C10. List listings treats an empty string as an absent parameter: a
    call with [q] empty is the call without [q], and a call with [category]
    empty is the call without [category], whatever the other parameters and
    the store are.  The same holds of the route. *)
Theorem list_listings_empty_as_absent :
  (∀ category limit w,
     list_listings (Some "") category limit w = list_listings None category limit w)
  ∧ (∀ q limit w,
       list_listings q (Some "") limit w = list_listings q None limit w)
  ∧ (∀ category limit w,
       GET_api_listings (Some "") category limit w = GET_api_listings None category limit w)
  ∧ (∀ q limit w,
       GET_api_listings q (Some "") limit w = GET_api_listings q None limit w).
Proof. repeat split. Qed.

Lemma In_take_limit {A} (n : Z) (x : A) (l : list A) :
  In x (take_limit n l) → In x l.
Proof.
  unfold take_limit. destruct (n =? 0); [done |].
  generalize (Z.to_nat (Z.abs n)) as k. intros k. revert k.
  induction l as [| y l IH]; intros [| k]; cbn; try done.
  intros [-> | Hx]; [by left | right; by apply (IH k)].
Qed.

Lemma selected_active (q category : option string) (d : Doc Listing.t) :
  selected q category d = true → Listing.status (fields d) = "active".
Proof.
  unfold selected. intros Hd.
  apply andb_true_iff in Hd as [Hd _]. apply andb_true_iff in Hd as [Hd _].
  by apply String.eqb_eq.
Qed.

Lemma selected_category (q : option string) (c : string) (d : Doc Listing.t) :
  c ≠ "" →
  selected q (Some c) d = true → Listing.category (fields d) = c.
Proof.
  unfold selected, truthy. intros Hc Hd.
  apply String.eqb_neq in Hc. rewrite Hc in Hd.
  apply andb_true_iff in Hd as [Hd _]. apply andb_true_iff in Hd as [_ Hd].
  by apply String.eqb_eq.
Qed.

(** What list listings returns when the store accepts the pattern. *)
Lemma selected_items (q category : option string) (limit : Z) (l : list (Doc Listing.t)) :
  let items := List.map pop_id (take_limit limit (List.filter (selected q category) l)) in
  Forall (λ i, Listing.status (item i) = "active") items
  ∧ ∀ c, category = Some c → c ≠ "" →
         Forall (λ i, Listing.category (item i) = c) items.
Proof.
  cbv zeta.
  split; [| intros c -> Hc]; apply List.Forall_forall; intros i Hi;
    apply in_map_iff in Hi as (d & <- & Hd);
    apply In_take_limit, filter_In in Hd as [_ Hd]; cbn [item pop_id].
  - by apply (selected_active q category).
  - by apply (selected_category q).
Qed.

(** C7, as amended.  Every call of list listings, whatever [q], [category]
    and the limit are, ends in one of two ways after one read of the
    listings.  Either the store refuses the pattern that [q] is, and no
    record is returned; or records are returned, every one of them has status
    active, and when [category] is a string other than the empty one, every
    one of them has exactly that category. *)
Theorem list_listings_active_and_category
    (q category : option string) (limit : Z) (w : World) :
  if pattern_refused q
  then list_listings q category limit w
       = (Raise OperationFailure, accessed (Reads "listing") w)
  else ∃ items,
      list_listings q category limit w = (Ok items, accessed (Reads "listing") w)
      ∧ Forall (λ i, Listing.status (item i) = "active") items
      ∧ ∀ c, category = Some c → c ≠ "" →
             Forall (λ i, Listing.category (item i) = c) items.
Proof.
  rewrite list_listings_unfold.
  destruct (pattern_refused q); [reflexivity |].
  eexists. split; [reflexivity |]. apply selected_items.
Qed.

(** *** Patterns of plain characters *)

Lemma is_plain_not_special (c : ascii) :
  Pcre.is_plain c = true → Ascii.eqb c "\" = false ∧ Ascii.eqb c "." = false.
Proof.
  unfold Pcre.is_plain, Pcre.is_meta. intros Hc.
  apply andb_true_iff in Hc as [_ Hc]. apply negb_true_iff in Hc.
  cbn [chars list_ascii_of_string existsb] in Hc.
  repeat (apply orb_false_iff in Hc as [? Hc]). by split.
Qed.

Lemma compile_chars_plain (p : list ascii) :
  forallb Pcre.is_plain p = true →
  Pcre.compile_chars p = Pcre.Compiled (List.map Pcre.Lit p).
Proof.
  induction p as [| c p IH]; cbn [forallb Pcre.compile_chars List.map]; [done |].
  intros Hp. apply andb_true_iff in Hp as [Hc Hp].
  destruct (is_plain_not_special c Hc) as [-> ->]. by rewrite Hc, (IH Hp).
Qed.

Lemma compile_plain (q : string) :
  forallb Pcre.is_plain (chars q) = true →
  Pcre.compile q "i" = Pcre.Compiled (List.map Pcre.Lit (chars q)).
Proof.
  intros Hq. unfold Pcre.compile.
  cbn [chars list_ascii_of_string forallb Ascii.eqb Bool.eqb andb].
  by apply compile_chars_plain.
Qed.

(** A query of plain characters is never refused, and selects as the
    search for its characters does. *)
Lemma plain_query (q title : string) :
  forallb Pcre.is_plain (chars q) = true →
  pattern_refused (Some q) = false
  ∧ match truthy (Some q) with
    | Some p => Pcre.test p "i" title
    | None => true
    end = Pcre.search true (List.map Pcre.Lit (chars q)) title.
Proof.
  intros Hq. unfold pattern_refused, truthy.
  destruct (String.eqb q "") eqn:Hempty.
  - apply String.eqb_eq in Hempty. subst q.
    split; [reflexivity |]. symmetry. apply search_empty_pattern.
  - apply (test_compiled q "i"), (compile_plain q Hq).
Qed.

Lemma lower_eqb (c x : ascii) : Ascii.eqb (lower c) (lower x) = true ↔ lower c = lower x.
Proof. apply Ascii.eqb_eq. Qed.

Lemma match_here_literal (q s : list ascii) :
  Pcre.match_here true (List.map Pcre.Lit q) s = true
  ↔ ∃ after, List.map lower s = (List.map lower q ++ after)%list.
Proof.
  revert s. induction q as [| c q IH]; intros s; cbn [List.map Pcre.match_here].
  - split; [intros _; by exists (List.map lower s) | done].
  - destruct s as [| x s]; cbn [List.map Pcre.atom_matches app].
    + split; [done | intros (after & Hafter); discriminate].
    + rewrite andb_true_iff, lower_eqb, IH. split.
      * intros (-> & after & ->). by exists after.
      * intros (after & Heq). injection Heq as -> Heq. split; [done | by exists after].
Qed.

Lemma search_from_literal (q s : list ascii) :
  Pcre.search_from true (List.map Pcre.Lit q) s = true
  ↔ ∃ before after, List.map lower s = (before ++ List.map lower q ++ after)%list.
Proof.
  induction s as [| x s IH]; cbn [Pcre.search_from]; rewrite orb_true_iff, match_here_literal.
  - split.
    + intros [(after & Hafter) | Hfalse]; [by exists [], after | discriminate].
    + intros (before & after & Heq). left.
      destruct before; [by exists after | discriminate].
  - rewrite IH. split.
    + intros [(after & Hafter) | (before & after & Heq)].
      * by exists [], after.
      * exists (lower x :: before), after. cbn [List.map app]. by rewrite Heq.
    + intros (before & after & Heq). destruct before as [| y before].
      * left. by exists after.
      * right. cbn [List.map app] in Heq. injection Heq as _ Heq.
        by exists before, after.
Qed.

Lemma search_literal (q title : string) :
  Pcre.search true (List.map Pcre.Lit (chars q)) title = true ↔ contains_ci q title.
Proof. apply search_from_literal. Qed.

(** C2, as amended.  When [q] is made of plain characters only (ASCII
    characters other than the metacharacters of regular expressions), list
    listings returns, in store order and cut at the limit, exactly the
    listings that are active, are of the given category when one is given,
    and whose title contains [q] as a substring, letter case apart. *)
Theorem list_listings_plain_query
    (q : string) (category : option string) (limit : Z) (w : World) :
  forallb Pcre.is_plain (chars q) = true →
  ∃ sel : Doc Listing.t → bool,
    (∀ d, sel d = true
          ↔ Listing.status (fields d) = "active"
            ∧ (∀ c, truthy category = Some c → Listing.category (fields d) = c)
            ∧ contains_ci q (Listing.title (fields d)))
    ∧ list_listings (Some q) category limit w
      = (Ok (List.map pop_id (take_limit limit (List.filter sel (db_listing (db w))))),
         accessed (Reads "listing") w).
Proof.
  intros Hq. exists (selected (Some q) category). split.
  - intros d. unfold selected.
    rewrite (proj2 (plain_query q (Listing.title (fields d)) Hq)).
    rewrite !andb_true_iff, search_literal, String.eqb_eq.
    destruct (truthy category) as [c |].
    + rewrite String.eqb_eq. split.
      * intros [[Hs Hc] Ht]. repeat split; [done | | done]. by intros ? [= <-].
      * intros (Hs & Hc & Ht). repeat split; [done | by apply Hc | done].
    + split.
      * intros [[Hs _] Ht]. by repeat split.
      * intros (Hs & _ & Ht). by repeat split.
  - rewrite list_listings_unfold. by rewrite (proj1 (plain_query q "" Hq)).
Qed.

(** * Further properties of the handlers *)

(** ** What the store operations do to the world *)

Lemma run_keeps_db `{Schema A} (c : Collection A) (f : gmap string cond) (w : World) :
  (run c f w).2 = accessed (Reads (collection_name c)) w.
Proof. rewrite run_unfold. by repeat case_match. Qed.

Lemma find_one_keeps_db `{Schema A} (c : Collection A) (f : gmap string cond) (w : World) :
  (find_one c f w).2 = accessed (Reads (collection_name c)) w.
Proof.
  unfold find_one, mbind, M_bind. pose proof (run_keeps_db c f w) as Hrun.
  destruct (run c f w) as [[found | e] w']; cbn in Hrun; by subst.
Qed.

Lemma iterate_keeps_db `{Schema A} (cur : Cursor A) (w : World) :
  (Cursor.iterate cur w).2 = accessed (Reads (collection_name (source cur))) w.
Proof.
  unfold Cursor.iterate, mbind, M_bind.
  pose proof (run_keeps_db (source cur) (query cur) w) as Hrun.
  destruct (run _ _ w) as [[found | e] w']; cbn in Hrun; by subst.
Qed.

Lemma create_document_eq {A} (c : Collection A) (data : A) (a : Assigned) (w : World) :
  create_document c data a w
  = (Ok (ObjectId.str (new_id a)),
     {| db := with_documents c (documents c (db w) ++ [mkDoc (new_id a) (now a) data]) (db w);
        log := (log w ++ [Writes (collection_name c)])%list |}).
Proof. reflexivity. Qed.

Lemma by_user_matches (user_id : string) (d : Doc Saved.t) :
  matches {[ "user_id" := Eq (VStr user_id) ]} d = saved_by user_id d.
Proof. rewrite matches_singleton. reflexivity. Qed.

Lemma find_one_by_email (e : string) (w : World) :
  find_one user {[ "email" := Eq (VStr e) ]} w
  = (Ok (head (List.filter (has_email e) (db_user (db w)))),
     accessed (Reads "user") w).
Proof.
  rewrite find_one_pattern_free by solve_pattern_free.
  cbn [documents user collection_name].
  by rewrite (filter_ext _ _ (by_email_matches e)).
Qed.

(** ** Registration and login *)

Lemma has_email_refl (e : string) (o : ObjectId.t) (t : Z) (u : User.t) :
  User.email u = e → has_email e (mkDoc o t u) = true.
Proof. intros <-. apply String.eqb_refl. Qed.

Lemma register_unfold (body : RegisterBody.t) (a : Assigned) (w : World) (e' : string) :
  List.filter (has_email (RegisterBody.email body)) (db_user (db w)) = [] →
  EmailStr (RegisterBody.email body) = Some e' →
  register body a w
  = (Ok (mkRegistered (ObjectId.str (new_id a)) (RegisterBody.name body) e'),
     {| db :=
          with_documents user
            (db_user (db w) ++
               [mkDoc (new_id a) (now a)
                  (User.mk (RegisterBody.name body) e'
                     (sha256 (RegisterBody.password body)) None
                     (RegisterBody.location body) true)])
            (db w);
        log := (log w ++ [Reads "user"] ++ [Writes "user"])%list |}).
Proof.
  intros Hnew Hmail. unfold register.
  unfold mbind at 1, M_bind at 1. rewrite find_one_by_email, Hnew. cbn [head].
  unfold UserSchema. rewrite Hmail. cbn [optional].
  unfold mbind at 1, M_bind at 1, mret at 1, M_ret at 1.
  unfold mbind, M_bind. rewrite create_document_eq.
  cbn [documents user collection_name User.name User.email db log accessed].
  unfold mret, M_ret. by rewrite <- app_assoc.
Qed.

(** X1. Registering with an email that no stored user has, and that the
    email validator accepts, stores one new user after the users already
    there: the name and location as sent, the email as the validator returns
    it, the digest of the password (never the password itself), no avatar,
    and the active flag set.  The answer carries the new identifier, the
    name and the stored email.  The store is read once and written once. *)
Theorem register_creates_user
    (body : RegisterBody.t) (a : Assigned) (w : World) (e' : string) :
  List.filter (has_email (RegisterBody.email body)) (db_user (db w)) = [] →
  EmailStr (RegisterBody.email body) = Some e' →
  ∃ w',
    register body a w
    = (Ok (mkRegistered (ObjectId.str (new_id a)) (RegisterBody.name body) e'), w')
    ∧ db_user (db w')
      = (db_user (db w) ++
           [mkDoc (new_id a) (now a)
              (User.mk (RegisterBody.name body) e'
                 (sha256 (RegisterBody.password body)) None
                 (RegisterBody.location body) true)])%list
    ∧ db_listing (db w') = db_listing (db w)
    ∧ db_message (db w') = db_message (db w)
    ∧ db_saved (db w') = db_saved (db w)
    ∧ log w' = (log w ++ [Reads "user"; Writes "user"])%list.
Proof.
  intros Hnew Hmail. rewrite (register_unfold _ _ _ _ Hnew Hmail).
  eexists. split; [reflexivity |]. by repeat split.
Qed.

(** X2. After a successful registration, logging in with the stored email
    and the same password succeeds and answers with the identifier, name and
    email of the registration, provided no earlier user carries the stored
    email. *)
Theorem register_then_login
    (body : RegisterBody.t) (a : Assigned) (w : World) (e' : string) :
  List.filter (has_email (RegisterBody.email body)) (db_user (db w)) = [] →
  List.filter (has_email e') (db_user (db w)) = [] →
  EmailStr (RegisterBody.email body) = Some e' →
  ∃ r w1,
    register body a w = (Ok r, w1)
    ∧ login (LoginBody.mk e' (RegisterBody.password body)) w1
      = (Ok r, accessed (Reads "user") w1)
    ∧ r = mkRegistered (ObjectId.str (new_id a)) (RegisterBody.name body) e'.
Proof.
  intros Hnew Hnew' Hmail. rewrite (register_unfold _ _ _ _ Hnew Hmail).
  do 2 eexists. split; [reflexivity |]. split; [| reflexivity].
  unfold login. unfold mbind, M_bind. rewrite find_one_by_email.
  cbn [db db_user with_documents user LoginBody.email LoginBody.password].
  rewrite List.filter_app, Hnew'. cbn [List.filter app].
  rewrite has_email_refl by reflexivity. cbn [head fields User.password_hash].
  by rewrite String.eqb_refl.
Qed.

(** X3. Login answers an unknown email and a wrong password alike: status
    401 with the detail "Invalid credentials", after one read of the users
    and without changing the database.  The password is checked against the
    first stored user that carries the email. *)
Theorem login_invalid_credentials (body : LoginBody.t) (w : World) :
  (∀ u, head (List.filter (has_email (LoginBody.email body)) (db_user (db w))) = Some u →
        User.password_hash (fields u) ≠ sha256 (LoginBody.password body)) →
  login body w
  = (Raise (HTTPException 401 "Invalid credentials"), accessed (Reads "user") w).
Proof.
  intros Hbad. unfold login, mbind, M_bind. rewrite find_one_by_email.
  destruct (head _) as [u |] eqn:Hu; [| reflexivity].
  specialize (Hbad u eq_refl). apply String.eqb_neq in Hbad. by rewrite Hbad.
Qed.

(** X4. When the validator stores the email as it was sent, registering the
    same email a second time fails with status 400 and stores nothing:
    exactly one user carries the email afterwards. *)
Theorem register_twice_same_email
    (body body' : RegisterBody.t) (a a' : Assigned) (w : World) :
  List.filter (has_email (RegisterBody.email body)) (db_user (db w)) = [] →
  EmailStr (RegisterBody.email body) = Some (RegisterBody.email body) →
  RegisterBody.email body' = RegisterBody.email body →
  ∃ r w1,
    register body a w = (Ok r, w1)
    ∧ register body' a' w1
      = (Raise (HTTPException 400 "Email already registered"),
         accessed (Reads "user") w1)
    ∧ length (List.filter (has_email (RegisterBody.email body)) (db_user (db w1))) = 1%nat.
Proof.
  intros Hnew Hmail Hsame. rewrite (register_unfold _ _ _ _ Hnew Hmail).
  assert (Hafter :
    List.filter (has_email (RegisterBody.email body))
      (db_user (db w) ++
         [mkDoc (new_id a) (now a)
            (User.mk (RegisterBody.name body) (RegisterBody.email body)
               (sha256 (RegisterBody.password body)) None
               (RegisterBody.location body) true)])
    = [mkDoc (new_id a) (now a)
         (User.mk (RegisterBody.name body) (RegisterBody.email body)
            (sha256 (RegisterBody.password body)) None
            (RegisterBody.location body) true)]).
  { rewrite List.filter_app, Hnew. cbn [List.filter app].
    by rewrite has_email_refl. }
  do 2 eexists. split; [reflexivity |]. split.
  - unfold register. unfold mbind at 1, M_bind at 1.
    rewrite find_one_by_email, Hsame. cbn [db db_user with_documents user].
    by rewrite Hafter.
  - cbn [db db_user with_documents user]. by rewrite Hafter.
Qed.

(** X5. The duplicate check looks up the email as it was sent, while the
    store holds the email as the validator returned it.  When the two forms
    differ, and no stored user carries the email as sent, the same
    registration succeeds twice in a row and leaves two users that carry the
    same stored email. *)
Theorem register_twice_rewritten_email
    (body : RegisterBody.t) (a1 a2 : Assigned) (w : World) (e' : string) :
  List.filter (has_email (RegisterBody.email body)) (db_user (db w)) = [] →
  EmailStr (RegisterBody.email body) = Some e' →
  e' ≠ RegisterBody.email body →
  ∃ r1 r2 w1 w2 u1 u2,
    register body a1 w = (Ok r1, w1)
    ∧ register body a2 w1 = (Ok r2, w2)
    ∧ db_user (db w2) = (db_user (db w) ++ [u1; u2])%list
    ∧ User.email (fields u1) = e'
    ∧ User.email (fields u2) = e'.
Proof.
  intros Hnew Hmail Hdiff. rewrite (register_unfold _ _ _ _ Hnew Hmail).
  assert (Hstill : ∀ u1 : Doc User.t,
    User.email (fields u1) = e' →
    List.filter (has_email (RegisterBody.email body)) (db_user (db w) ++ [u1]) = []).
  { intros u1 Hu1. rewrite List.filter_app, Hnew. cbn [List.filter app].
    unfold has_email. rewrite Hu1.
    apply String.eqb_neq in Hdiff. by rewrite Hdiff. }
  do 6 eexists. split; [reflexivity |].
  rewrite (register_unfold _ _ _ e'); [| by apply Hstill | done].
  split; [reflexivity |].
  cbn [db db_user with_documents user]. rewrite <- app_assoc. by repeat split.
Qed.

(** ** Limits, sorting and membership *)

Lemma take_limit_all {A} (n : Z) (l : list A) :
  Z.of_nat (length l) ≤ n → take_limit n l = l.
Proof.
  intros Hn. unfold take_limit. destruct (n =? 0); [done |].
  apply firstn_all2. lia.
Qed.

Lemma take_limit_length {A} (n : Z) (l : list A) :
  1 ≤ n → Z.of_nat (length (take_limit n l)) ≤ n.
Proof.
  intros Hn. unfold take_limit. destruct (n =? 0) eqn:H0; [lia |].
  rewrite length_firstn. lia.
Qed.

Lemma insert_sorted_Permutation {A} (leb : A → A → bool) (x : A) (l : list A) :
  insert_sorted leb x l ≡ₚ x :: l.
Proof.
  induction l as [| y l IH]; cbn; [done |].
  destruct (leb x y); [done |]. rewrite IH. apply Permutation_swap.
Qed.

Lemma stable_sort_Permutation {A} (leb : A → A → bool) (l : list A) :
  stable_sort leb l ≡ₚ l.
Proof.
  induction l as [| x l IH]; cbn; [done |].
  by rewrite insert_sorted_Permutation, IH.
Qed.

Lemma in_thread_spec (listing_id a b : string) (d : Doc Message.t) :
  in_thread listing_id a b d = true
  ↔ Message.listing_id (fields d) = listing_id
    ∧ ((Message.from_user_id (fields d) = a ∧ Message.to_user_id (fields d) = b)
       ∨ (Message.from_user_id (fields d) = b ∧ Message.to_user_id (fields d) = a)).
Proof.
  unfold in_thread.
  by rewrite andb_true_iff, orb_true_iff, !andb_true_iff, !String.eqb_eq.
Qed.

Lemma get_thread_valid (listing_id a b : string) (limit : Z) (w : World) :
  is_valid listing_id = true →
  is_valid a = true →
  is_valid b = true →
  get_thread listing_id a b limit w
  = (Ok (List.map pop_id
           (take_limit limit
              (stable_sort (sort_leb "created_at" 1)
                 (List.filter (in_thread listing_id a b) (db_message (db w)))))),
     accessed (Reads "message") w).
Proof.
  intros HL Ha Hb. unfold get_thread, mbind, M_bind.
  rewrite HL, Ha, Hb. cbn [andb negb]. by rewrite thread_query.
Qed.

Lemma get_thread_Ok (listing_id a b : string) (limit : Z) (w w' : World)
    (items : list (Item Message.t)) :
  get_thread listing_id a b limit w = (Ok items, w') →
  items = List.map pop_id
            (take_limit limit
               (stable_sort (sort_leb "created_at" 1)
                  (List.filter (in_thread listing_id a b) (db_message (db w))))).
Proof.
  unfold get_thread, mbind, M_bind.
  destruct (negb _); [discriminate |].
  rewrite thread_query. by intros [= <- _].
Qed.

(** X6. Get thread never returns a message of another conversation: every
    returned item is a stored message, under its identifier as a string,
    that is about the given listing and was sent by one of the two users to
    the other. *)
Theorem get_thread_only_thread_messages
    (listing_id a b : string) (limit : Z) (w w' : World)
    (items : list (Item Message.t)) :
  get_thread listing_id a b limit w = (Ok items, w') →
  Forall
    (λ i, ∃ d, In d (db_message (db w))
               ∧ i = pop_id d
               ∧ Message.listing_id (item i) = listing_id
               ∧ ((Message.from_user_id (item i) = a ∧ Message.to_user_id (item i) = b)
                  ∨ (Message.from_user_id (item i) = b ∧ Message.to_user_id (item i) = a)))
    items.
Proof.
  intros Hrun. rewrite (get_thread_Ok _ _ _ _ _ _ _ Hrun).
  apply List.Forall_forall. intros i Hi.
  apply in_map_iff in Hi as (d & <- & Hd). apply In_take_limit in Hd.
  apply list_elem_of_In in Hd. rewrite stable_sort_Permutation in Hd.
  apply list_elem_of_In, filter_In in Hd as [Hd Hthread].
  apply in_thread_spec in Hthread. by exists d.
Qed.

(** X7. When the conversation holds no more messages than the limit, get
    thread returns every message of the conversation, each exactly once. *)
Theorem get_thread_complete_within_limit
    (listing_id a b : string) (limit : Z) (w : World) :
  is_valid listing_id = true →
  is_valid a = true →
  is_valid b = true →
  Z.of_nat (length (List.filter (in_thread listing_id a b) (db_message (db w)))) ≤ limit →
  ∃ items,
    get_thread listing_id a b limit w = (Ok items, accessed (Reads "message") w)
    ∧ items ≡ₚ List.map pop_id
                 (List.filter (in_thread listing_id a b) (db_message (db w))).
Proof.
  intros HL Ha Hb Hlimit. rewrite (get_thread_valid _ _ _ _ _ HL Ha Hb).
  eexists. split; [reflexivity |].
  rewrite take_limit_all.
  - apply Permutation_map, stable_sort_Permutation.
  - by rewrite (Permutation_length (stable_sort_Permutation _ _)).
Qed.

Lemma list_listings_Ok (q category : option string) (limit : Z) (w w' : World)
    (items : list (Item Listing.t)) :
  list_listings q category limit w = (Ok items, w') →
  items = List.map pop_id
            (take_limit limit (List.filter (selected q category) (db_listing (db w)))).
Proof.
  rewrite list_listings_unfold. destruct (pattern_refused q); try discriminate.
  by intros [= <- _].
Qed.

Lemma Query_Ok (d ge le : Z) (parameter : string) (supplied : option Z)
    (n : Z) (w w' : World) :
  Query d ge le parameter supplied w = (Ok n, w') →
  w' = w ∧ n = default d supplied ∧ (supplied = None ∨ (ge ≤ n ∧ n ≤ le)).
Proof.
  unfold Query. destruct supplied as [m |]; cbn.
  - destruct ((ge <=? m) && (m <=? le)) eqn:Hm; [| discriminate].
    apply andb_true_iff in Hm as [Hge Hle]. apply Z.leb_le in Hge, Hle.
    intros [= <- <-]. split; [done |]. split; [done |]. right. lia.
  - intros [= <- <-]. split; [done |]. split; [done |]. by left.
Qed.

Lemma Query_in_bounds (d ge le : Z) (parameter : string) (supplied : option Z)
    (w : World) :
  (∀ n, supplied = Some n → ge ≤ n ∧ n ≤ le) →
  Query d ge le parameter supplied w = (Ok (default d supplied), w).
Proof.
  intros Hn. unfold Query. destruct supplied as [n |]; [| done].
  destruct (Hn n eq_refl) as [Hge Hle].
  apply Z.leb_le in Hge, Hle. by rewrite Hge, Hle.
Qed.

(** X8. The routes cap their answers: list listings returns at most as
    many items as the limit sent, 20 when none is sent, and never more than
    100; get thread at most as many as the limit sent, 50 when none is sent,
    and never more than 200.  And the routes do answer: list listings
    whenever the limit sent is within 1 to 100 and the store accepts the
    pattern that [q] is, get thread whenever the limit sent is within 1 to 200
    and the three identifiers are valid. *)
Theorem routes_cap_results :
  (∀ q category limit w w' items,
     GET_api_listings q category limit w = (Ok items, w') →
     Z.of_nat (length items) ≤ default 20 limit ∧ default 20 limit ≤ 100)
  ∧ (∀ listing_id a b limit w w' items,
       GET_api_messages_thread listing_id a b limit w = (Ok items, w') →
       Z.of_nat (length items) ≤ default 50 limit ∧ default 50 limit ≤ 200)
  ∧ (∀ q category limit w,
       (∀ n, limit = Some n → 1 ≤ n ∧ n ≤ 100) →
       pattern_refused q = false →
       ∃ items,
         GET_api_listings q category limit w
         = (Ok items, accessed (Reads "listing") w))
  ∧ (∀ listing_id a b limit w,
       (∀ n, limit = Some n → 1 ≤ n ∧ n ≤ 200) →
       is_valid listing_id = true → is_valid a = true → is_valid b = true →
       ∃ items,
         GET_api_messages_thread listing_id a b limit w
         = (Ok items, accessed (Reads "message") w)).
Proof.
  split; [| split; [| split]].
  - intros q category limit w w' items. unfold GET_api_listings, mbind, M_bind.
    destruct (Query 20 1 100 "limit" limit w) as [[n | e] w1] eqn:HQ; [| discriminate].
    apply Query_Ok in HQ as (-> & -> & Hn). intros Hrun.
    rewrite (list_listings_Ok _ _ _ _ _ _ Hrun), length_map.
    assert (1 ≤ default 20 limit ∧ default 20 limit ≤ 100) as [Hlo Hhi]
      by (destruct Hn as [-> | Hn]; cbn; lia).
    split; [by apply take_limit_length | done].
  - intros listing_id a b limit w w' items.
    unfold GET_api_messages_thread, mbind, M_bind.
    destruct (Query 50 1 200 "limit" limit w) as [[n | e] w1] eqn:HQ; [| discriminate].
    apply Query_Ok in HQ as (-> & -> & Hn). intros Hrun.
    rewrite (get_thread_Ok _ _ _ _ _ _ _ Hrun), length_map.
    assert (1 ≤ default 50 limit ∧ default 50 limit ≤ 200) as [Hlo Hhi]
      by (destruct Hn as [-> | Hn]; cbn; lia).
    split; [by apply take_limit_length | done].
  - intros q category limit w Hn Hq. unfold GET_api_listings, mbind, M_bind.
    rewrite (Query_in_bounds _ _ _ _ _ _ Hn), list_listings_unfold, Hq.
    by eexists.
  - intros listing_id a b limit w Hn HL Ha Hb.
    unfold GET_api_messages_thread, mbind, M_bind.
    rewrite (Query_in_bounds _ _ _ _ _ _ Hn), (get_thread_valid _ _ _ _ _ HL Ha Hb).
    by eexists.
Qed.

(** X9. A limit outside its bounds (1 to 100 for list listings, 1 to 200
    for get thread) is refused by the route with a request validation error
    before the handler runs: the store is not touched, whatever the other
    parameters are. *)
Theorem routes_refuse_limit_out_of_bounds :
  (∀ q category n w,
     n < 1 ∨ 100 < n →
     GET_api_listings q category (Some n) w
     = (Raise (RequestValidationError "limit"), w))
  ∧ (∀ listing_id a b n w,
       n < 1 ∨ 200 < n →
       GET_api_messages_thread listing_id a b (Some n) w
       = (Raise (RequestValidationError "limit"), w)).
Proof.
  split.
  - intros q category n w Hn. unfold GET_api_listings, Query, mbind, M_bind.
    replace ((1 <=? n) && (n <=? 100)) with false; [done |].
    symmetry. apply andb_false_iff. lia.
  - intros listing_id a b n w Hn.
    unfold GET_api_messages_thread, Query, mbind, M_bind.
    replace ((1 <=? n) && (n <=? 200)) with false; [done |].
    symmetry. apply andb_false_iff. lia.
Qed.

(** ** Creating listings and sending messages *)

(** X10. A create listing request whose owner identifier is well formed
    but is that of no stored user fails with status 404 and the detail "User
    not found", after one read of the users; nothing is stored. *)
Theorem create_listing_owner_not_found
    (body : CreateListingBody.t) (a : Assigned) (w : World) :
  is_valid (CreateListingBody.user_id body) = true →
  Forall (λ d, refers_to (CreateListingBody.user_id body) d = false) (db_user (db w)) →
  create_listing body a w
  = (Raise (HTTPException 404 "User not found"), accessed (Reads "user") w).
Proof.
  intros Hid Hnone. unfold create_listing. rewrite Hid. cbn [negb].
  rewrite (find_one_by_id _ _ _ _ Hid).
  cbn [documents user collection_name]. by rewrite (filter_none _ _ Hnone).
Qed.

(** X11. A create listing request of a stored owner is refused by the
    listing schema, with a validation error that no handler catches, when
    its title is longer than 140 characters, its description longer than 5000
    characters, its price not at least 0, or one of its image addresses not
    accepted by the validator; nothing is stored. *)
Theorem create_listing_schema_refusal
    (body : CreateListingBody.t) (a : Assigned) (w : World) :
  is_valid (CreateListingBody.user_id body) = true →
  Exists (λ d, refers_to (CreateListingBody.user_id body) d = true) (db_user (db w)) →
  140 < len (CreateListingBody.title body)
  ∨ 5000 < len (CreateListingBody.description body)
  ∨ PrimFloat.leb 0 (CreateListingBody.price body) = false
  ∨ mapM HttpUrl (default [] (CreateListingBody.images body)) = None →
  create_listing body a w
  = (Raise (ValidationError "Listing"), accessed (Reads "user") w).
Proof.
  intros Hid Howner Hbad. unfold create_listing. rewrite Hid. cbn [negb].
  rewrite (find_one_by_id _ _ _ _ Hid).
  destruct (head_filter_Exists _ _ Howner) as (owner & Hhead & _).
  cbn [documents user collection_name]. rewrite Hhead.
  unfold ListingSchema, mbind, M_bind.
  destruct (len (CreateListingBody.title body) <=? 140) eqn:Htitle; [| done].
  destruct (len (CreateListingBody.description body) <=? 5000) eqn:Hdescr; [| done].
  destruct (PrimFloat.leb 0 (CreateListingBody.price body)) eqn:Hprice; [| done].
  apply Z.leb_le in Htitle, Hdescr.
  destruct Hbad as [Hbad | [Hbad | [Hbad | Hbad]]]; [lia | lia | done |].
  rewrite Hbad. cbn [andb]. by destruct (_ && _).
Qed.

Lemma send_message_unfold (body : SendMessageBody.t) (a : Assigned) (w : World) :
  is_valid (SendMessageBody.listing_id body) = true →
  is_valid (SendMessageBody.from_user_id body) = true →
  is_valid (SendMessageBody.to_user_id body) = true →
  Exists (λ d, refers_to (SendMessageBody.listing_id body) d = true) (db_listing (db w)) →
  send_message body a w
  = (if len (SendMessageBody.content body) <=? 5000
     then
       (Ok (ObjectId.str (new_id a)),
        {| db :=
             with_documents message
               (db_message (db w) ++ [mkDoc (new_id a) (now a) (message_of body)])
               (db w);
           log := (log w ++ [Reads "listing"] ++ [Writes "message"])%list |})
     else (Raise (ValidationError "Message"), accessed (Reads "listing") w)).
Proof.
  intros HL Hf Ht Hlisting. unfold send_message.
  rewrite HL, Hf, Ht. cbn [andb negb].
  rewrite (find_one_by_id _ _ _ _ HL).
  destruct (head_filter_Exists _ _ Hlisting) as (found & Hhead & _).
  cbn [documents listing collection_name]. rewrite Hhead.
  unfold MessageSchema, mbind, M_bind.
  destruct (len (SendMessageBody.content body) <=? 5000); [| reflexivity].
  unfold mret at 1, M_ret at 1. rewrite create_document_eq.
  cbn [documents message collection_name db log accessed].
  by rewrite <- app_assoc.
Qed.

(** X12. A send message request with three well-formed identifiers, a
    stored listing and a content of at most 5000 characters stores one new
    message after the messages already there, unread, and answers with its
    identifier.  Neither user needs to be a stored user: the users are not
    looked up. *)
Theorem send_message_stores (body : SendMessageBody.t) (a : Assigned) (w : World) :
  is_valid (SendMessageBody.listing_id body) = true →
  is_valid (SendMessageBody.from_user_id body) = true →
  is_valid (SendMessageBody.to_user_id body) = true →
  Exists (λ d, refers_to (SendMessageBody.listing_id body) d = true) (db_listing (db w)) →
  len (SendMessageBody.content body) ≤ 5000 →
  ∃ w',
    send_message body a w = (Ok (ObjectId.str (new_id a)), w')
    ∧ db_message (db w')
      = (db_message (db w) ++
           [mkDoc (new_id a) (now a)
              (Message.mk (SendMessageBody.listing_id body)
                 (SendMessageBody.from_user_id body)
                 (SendMessageBody.to_user_id body)
                 (SendMessageBody.content body) false)])%list
    ∧ db_user (db w') = db_user (db w)
    ∧ db_listing (db w') = db_listing (db w)
    ∧ db_saved (db w') = db_saved (db w)
    ∧ log w' = (log w ++ [Reads "listing"; Writes "message"])%list.
Proof.
  intros HL Hf Ht Hlisting Hlen.
  rewrite (send_message_unfold _ _ _ HL Hf Ht Hlisting).
  apply Z.leb_le in Hlen. rewrite Hlen.
  eexists. split; [reflexivity |]. by repeat split.
Qed.

(** X13. A send message request whose content is longer than 5000
    characters is refused by the message schema, with a validation error
    that no handler catches, after the listing was looked up; nothing is
    stored. *)
Theorem send_message_content_too_long
    (body : SendMessageBody.t) (a : Assigned) (w : World) :
  is_valid (SendMessageBody.listing_id body) = true →
  is_valid (SendMessageBody.from_user_id body) = true →
  is_valid (SendMessageBody.to_user_id body) = true →
  Exists (λ d, refers_to (SendMessageBody.listing_id body) d = true) (db_listing (db w)) →
  5000 < len (SendMessageBody.content body) →
  send_message body a w
  = (Raise (ValidationError "Message"), accessed (Reads "listing") w).
Proof.
  intros HL Hf Ht Hlisting Hlen.
  rewrite (send_message_unfold _ _ _ HL Hf Ht Hlisting).
  apply Z.leb_gt in Hlen. by rewrite Hlen.
Qed.

Lemma in_thread_message_of (body : SendMessageBody.t) (o : ObjectId.t) (t : Z) :
  in_thread (SendMessageBody.listing_id body) (SendMessageBody.from_user_id body)
    (SendMessageBody.to_user_id body) (mkDoc o t (message_of body)) = true.
Proof. apply in_thread_spec. cbn. by split; [| left]. Qed.

(** X14. A message that was sent is part of the conversation: after a
    successful send message, get thread for the listing and the two users,
    named in either order, returns the new message under the identifier that
    send message answered with, provided the conversation held fewer
    messages than the limit. *)
Theorem send_message_then_get_thread
    (body : SendMessageBody.t) (a : Assigned) (w : World) (limit : Z) :
  is_valid (SendMessageBody.listing_id body) = true →
  is_valid (SendMessageBody.from_user_id body) = true →
  is_valid (SendMessageBody.to_user_id body) = true →
  Exists (λ d, refers_to (SendMessageBody.listing_id body) d = true) (db_listing (db w)) →
  len (SendMessageBody.content body) ≤ 5000 →
  Z.of_nat (length (List.filter
                      (in_thread (SendMessageBody.listing_id body)
                         (SendMessageBody.from_user_id body)
                         (SendMessageBody.to_user_id body))
                      (db_message (db w)))) < limit →
  ∃ id w1 items,
    send_message body a w = (Ok id, w1)
    ∧ get_thread (SendMessageBody.listing_id body) (SendMessageBody.from_user_id body)
        (SendMessageBody.to_user_id body) limit w1
      = (Ok items, accessed (Reads "message") w1)
    ∧ get_thread (SendMessageBody.listing_id body) (SendMessageBody.to_user_id body)
        (SendMessageBody.from_user_id body) limit w1
      = (Ok items, accessed (Reads "message") w1)
    ∧ In (mkItem id (now a) (message_of body)) items.
Proof.
  intros HL Hf Ht Hlisting Hlen Hlimit.
  rewrite (send_message_unfold _ _ _ HL Hf Ht Hlisting).
  apply Z.leb_le in Hlen. rewrite Hlen.
  do 3 eexists. split; [reflexivity |].
  rewrite (get_thread_valid _ _ _ _ _ HL Hf Ht), (get_thread_valid _ _ _ _ _ HL Ht Hf).
  rewrite (filter_ext _ _ (in_thread_sym _ (SendMessageBody.to_user_id body)
                             (SendMessageBody.from_user_id body))).
  split; [reflexivity |]. split; [reflexivity |].
  cbn [db db_message with_documents message].
  rewrite List.filter_app. cbn [List.filter]. rewrite in_thread_message_of.
  rewrite take_limit_all.
  - apply (in_map pop_id _ (mkDoc (new_id a) (now a) (message_of body))).
    apply list_elem_of_In. rewrite stable_sort_Permutation.
    apply list_elem_of_In, in_or_app. right. by left.
  - rewrite (Permutation_length (stable_sort_Permutation _ _)).
    rewrite length_app. cbn [length]. lia.
Qed.

(** X15. A listing that was created is listed: after a successful create
    listing, list listings without a query, for the category of the request,
    returns the new listing under the identifier that create listing
    answered with, provided fewer listings than the limit were selected
    before. *)
Theorem create_listing_then_list_listings
    (body : CreateListingBody.t) (a : Assigned) (w : World) (urls : list string)
    (limit : Z) :
  is_valid (CreateListingBody.user_id body) = true →
  Exists (λ d, refers_to (CreateListingBody.user_id body) d = true) (db_user (db w)) →
  len (CreateListingBody.title body) ≤ 140 →
  len (CreateListingBody.description body) ≤ 5000 →
  PrimFloat.leb 0 (CreateListingBody.price body) = true →
  mapM HttpUrl (default [] (CreateListingBody.images body)) = Some urls →
  Z.of_nat (length (List.filter
                      (selected None (Some (CreateListingBody.category body)))
                      (db_listing (db w)))) < limit →
  ∃ id w1 items,
    create_listing body a w = (Ok id, w1)
    ∧ list_listings None (Some (CreateListingBody.category body)) limit w1
      = (Ok items, accessed (Reads "listing") w1)
    ∧ In (mkItem id (now a) (listing_of body urls)) items.
Proof.
  intros Hid Howner Htitle Hdescr Hprice Hurls Hlimit.
  rewrite (create_listing_stores _ _ _ _ Hid Howner Htitle Hdescr Hprice Hurls).
  do 3 eexists. split; [reflexivity |].
  rewrite list_listings_unfold. cbn [pattern_refused truthy].
  split; [reflexivity |].
  cbn [db db_listing with_documents listing].
  rewrite List.filter_app. cbn [List.filter].
  replace (selected None (Some (CreateListingBody.category body)) _) with true.
  - rewrite take_limit_all.
    + apply (in_map pop_id _ (mkDoc (new_id a) (now a) (listing_of body urls))).
      apply in_or_app. right. by left.
    + rewrite length_app. cbn [length]. lia.
  - symmetry. unfold selected, listing_of.
    cbn [fields Listing.status Listing.category Listing.title truthy].
    rewrite andb_true_r.
    destruct (String.eqb _ ""); by rewrite ?String.eqb_refl.
Qed.

(** ** Saved listings *)

Lemma get_saved_valid (user_id : string) (w : World) :
  is_valid user_id = true →
  get_saved user_id w
  = (Ok (List.map pop_id (List.filter (saved_by user_id) (db_saved (db w)))),
     accessed (Reads "saved") w).
Proof.
  intros Hid. unfold get_saved. rewrite Hid. cbn [negb].
  unfold Cursor.iterate, find, mbind, M_bind. cbn [source query ordering bound].
  rewrite run_pattern_free by solve_pattern_free.
  cbn [documents saved collection_name]. unfold mret, M_ret.
  by rewrite (filter_ext _ _ (by_user_matches user_id)).
Qed.

(** X16. For a well-formed user identifier, list saved returns all the
    saved entries of that user and no entry of another user, in store order
    and without any cap, each under its identifier as a string; the store is
    read once and not written. *)
Theorem get_saved_returns_entries_of_user (user_id : string) (w : World) :
  is_valid user_id = true →
  ∃ items,
    get_saved user_id w = (Ok items, accessed (Reads "saved") w)
    ∧ items = List.map pop_id (List.filter (saved_by user_id) (db_saved (db w)))
    ∧ Forall (λ i, Saved.user_id (item i) = user_id) items
    ∧ ∀ d, In d (db_saved (db w)) → Saved.user_id (fields d) = user_id →
           In (pop_id d) items.
Proof.
  intros Hid. rewrite (get_saved_valid _ _ Hid).
  eexists. split; [reflexivity |]. split; [reflexivity |]. split.
  - apply List.Forall_forall. intros i Hi.
    apply in_map_iff in Hi as (d & <- & Hd). apply filter_In in Hd as [_ Hd].
    by apply String.eqb_eq in Hd.
  - intros d Hd Hu. apply in_map, filter_In. split; [done |].
    by apply String.eqb_eq.
Qed.

Lemma save_listing_unfold (body : SaveBody.t) (a : Assigned) (w : World) :
  is_valid (SaveBody.user_id body) = true →
  is_valid (SaveBody.listing_id body) = true →
  save_listing body a w
  = match head (List.filter (saved_for (SaveBody.user_id body) (SaveBody.listing_id body))
                  (db_saved (db w))) with
    | Some _ => (Ok AlreadySaved, accessed (Reads "saved") w)
    | None =>
        (Ok (SavedAs (ObjectId.str (new_id a))),
         {| db :=
              with_documents saved
                (db_saved (db w) ++
                   [mkDoc (new_id a) (now a)
                      (Saved.mk (SaveBody.user_id body) (SaveBody.listing_id body))])
                (db w);
            log := (log w ++ [Reads "saved"] ++ [Writes "saved"])%list |})
    end.
Proof.
  intros Hu Hl. unfold save_listing. rewrite Hu, Hl. cbn [andb negb].
  unfold mbind at 1, M_bind at 1. rewrite find_one_saved.
  destruct (head _); [reflexivity |].
  unfold SavedSchema, mbind, M_bind, mret, M_ret. rewrite create_document_eq.
  cbn [documents saved collection_name db log accessed].
  by rewrite <- app_assoc.
Qed.

(** X17. A listing that was saved shows among the saved entries of the
    user: after save listing created an entry, list saved for the user
    returns what it returned before, followed by the new entry under the
    identifier that save listing answered with.  The listing need not be a
    stored listing: save listing reads and writes the saved entries only. *)
Theorem save_listing_then_get_saved (body : SaveBody.t) (a : Assigned) (w : World) :
  is_valid (SaveBody.user_id body) = true →
  is_valid (SaveBody.listing_id body) = true →
  List.filter (saved_for (SaveBody.user_id body) (SaveBody.listing_id body))
    (db_saved (db w)) = [] →
  ∃ before w1,
    get_saved (SaveBody.user_id body) w = (Ok before, accessed (Reads "saved") w)
    ∧ save_listing body a w = (Ok (SavedAs (ObjectId.str (new_id a))), w1)
    ∧ get_saved (SaveBody.user_id body) w1
      = (Ok (before ++
               [mkItem (ObjectId.str (new_id a)) (now a)
                  (Saved.mk (SaveBody.user_id body) (SaveBody.listing_id body))])%list,
         accessed (Reads "saved") w1)
    ∧ log w1 = (log w ++ [Reads "saved"; Writes "saved"])%list.
Proof.
  intros Hu Hl Hnew. rewrite (get_saved_valid _ _ Hu).
  rewrite (save_listing_unfold _ _ _ Hu Hl), Hnew. cbn [head].
  do 2 eexists. split; [reflexivity |]. split; [reflexivity |].
  rewrite (get_saved_valid _ _ Hu).
  cbn [db db_saved with_documents saved log]. split; [| reflexivity].
  rewrite List.filter_app, List.map_app. cbn [List.filter].
  unfold saved_by at 2. cbn [fields Saved.user_id]. by rewrite String.eqb_refl.
Qed.

Lemma saved_for_other (u l u' l' : string) (o : ObjectId.t) (t : Z) :
  saved_for u l (mkDoc o t (Saved.mk u' l')) = true → u' = u ∧ l' = l.
Proof.
  unfold saved_for. cbn. rewrite andb_true_iff, !String.eqb_eq.
  by intros [-> ->].
Qed.

(** X18. Save listing keeps saved entries unique: if the store holds at
    most one saved entry per (user, listing) pair, it still does after any
    save listing request, whatever the request and its outcome. *)
Theorem save_listing_keeps_pairs_unique (body : SaveBody.t) (a : Assigned) (w : World) :
  pairs_unique (db_saved (db w)) →
  pairs_unique (db_saved (db (save_listing body a w).2)).
Proof.
  intros Huniq.
  destruct (is_valid (SaveBody.user_id body) && is_valid (SaveBody.listing_id body))
    eqn:Hvalid.
  - apply andb_true_iff in Hvalid as [Hu Hl].
    rewrite (save_listing_unfold _ _ _ Hu Hl).
    destruct (List.filter (saved_for (SaveBody.user_id body) (SaveBody.listing_id body))
                (db_saved (db w))) as [| d found] eqn:Hfound; cbn [head snd]; [| done].
    cbn [db db_saved with_documents saved]. intros u l.
    rewrite List.filter_app, length_app. cbn [List.filter].
    destruct (saved_for u l (mkDoc _ _ _)) eqn:Hnewdoc; cbn [length].
    + apply saved_for_other in Hnewdoc as [Hu' Hl'].
      rewrite Hu', Hl' in Hfound. rewrite Hfound. cbn. lia.
    + specialize (Huniq u l). lia.
  - unfold save_listing. rewrite Hvalid. by cbn.
Qed.

(** ** What the handlers never do *)

(** X19. Login, list listings, list saved and get thread are read-only:
    whatever the request and its outcome, the database is left as it was,
    nothing is written, and the store is read at most once. *)
Theorem reading_handlers_only_read :
  (∀ body w, only_read w (login body w).2)
  ∧ (∀ q category limit w, only_read w (list_listings q category limit w).2)
  ∧ (∀ user_id w, only_read w (get_saved user_id w).2)
  ∧ (∀ listing_id a b limit w, only_read w (get_thread listing_id a b limit w).2).
Proof.
  repeat split.
  - intros body w. unfold login, mbind, M_bind. rewrite find_one_by_email.
    right. exists "user". destruct (head _) as [u |]; [| reflexivity].
    by destruct (negb _).
  - intros q category limit w. rewrite list_listings_unfold.
    right. by exists "listing".
  - intros user_id w. destruct (is_valid user_id) eqn:Hid.
    + rewrite (get_saved_valid _ _ Hid). right. by exists "saved".
    + unfold get_saved. rewrite Hid. by left.
  - intros listing_id a b limit w.
    destruct (is_valid listing_id) eqn:HL, (is_valid a) eqn:Ha, (is_valid b) eqn:Hb;
      try (rewrite get_thread_rejects
             by first [left; done | right; left; done | right; right; done];
           by left).
    rewrite (get_thread_valid _ _ _ _ _ HL Ha Hb). right. by exists "message".
Qed.

(** X20. Register, create listing, save listing and send message never
    change, move or remove a stored document: whatever the request and its
    outcome, the database afterwards is the database before, or the database
    before with one document added at the end of one collection. *)
Theorem writing_handlers_only_append :
  (∀ body a w, grown (db w) (db (register body a w).2))
  ∧ (∀ body a w, grown (db w) (db (create_listing body a w).2))
  ∧ (∀ body a w, grown (db w) (db (save_listing body a w).2))
  ∧ (∀ body a w, grown (db w) (db (send_message body a w).2)).
Proof.
  repeat split.
  - intros body a w. unfold register. unfold mbind at 1, M_bind at 1.
    rewrite find_one_by_email. destruct (head _); [by left |].
    unfold UserSchema, mbind, M_bind. cbn [optional].
    destruct (EmailStr _); [| by left].
    unfold mret at 1, M_ret at 1. rewrite create_document_eq.
    right. left. by eexists.
  - intros body a w. unfold create_listing.
    destruct (is_valid (CreateListingBody.user_id body)) eqn:Hid; [| by left].
    cbn [negb]. rewrite (find_one_by_id _ _ _ _ Hid).
    destruct (head _); [| by left].
    unfold ListingSchema, mbind, M_bind.
    destruct (_ && _); [| by left]. destruct (mapM _ _); [| by left].
    unfold mret at 1, M_ret at 1. rewrite create_document_eq.
    right. right. left. by eexists.
  - intros body a w.
    destruct (is_valid (SaveBody.user_id body)) eqn:Hu,
             (is_valid (SaveBody.listing_id body)) eqn:Hl;
      try (unfold save_listing; rewrite Hu, Hl; by left).
    rewrite (save_listing_unfold _ _ _ Hu Hl). destruct (head _); [by left |].
    do 4 right. by eexists.
  - intros body a w.
    destruct (is_valid (SendMessageBody.listing_id body)) eqn:HL,
             (is_valid (SendMessageBody.from_user_id body)) eqn:Hf,
             (is_valid (SendMessageBody.to_user_id body)) eqn:Ht;
      try (unfold send_message; rewrite HL, Hf, Ht; by left).
    unfold send_message. rewrite HL, Hf, Ht. cbn [andb negb].
    rewrite (find_one_by_id _ _ _ _ HL). destruct (head _); [| by left].
    unfold MessageSchema, mbind, M_bind. destruct (_ <=? _); [| by left].
    unfold mret at 1, M_ret at 1. rewrite create_document_eq.
    do 3 right. left. by eexists.
Qed.

(** X21. [ObjectIdStr.validate] accepts a non-empty string exactly when
    [ObjectId.is_valid] does: it returns the string unchanged when it is
    valid, and raises status 400 with the detail "Invalid id" when it is
    not; the store is not touched. *)
Theorem ObjectIdStr_validate_agrees_with_is_valid (v : string) (w : World) :
  v ≠ "" →
  ObjectIdStr_validate v w
  = (if is_valid v then Ok v else Raise (HTTPException 400 "Invalid id"), w).
Proof.
  intros Hv. apply String.eqb_neq in Hv.
  unfold ObjectIdStr_validate, is_valid. rewrite Hv. cbn [negb andb].
  by destruct (ObjectId_of v).
Qed.

Lemma filter_sublist {A} (p : A → bool) (l : list A) : List.filter p l `sublist_of` l.
Proof.
  induction l as [| x l IH]; cbn; [done |].
  destruct (p x); [by apply sublist_skip | by apply sublist_cons].
Qed.

Lemma take_limit_sublist {A} (n : Z) (l : list A) : take_limit n l `sublist_of` l.
Proof. unfold take_limit. destruct (n =? 0); [done |]. apply sublist_take. Qed.

Lemma map_sublist {A B} (f : A → B) (l k : list A) :
  l `sublist_of` k → List.map f l `sublist_of` List.map f k.
Proof.
  induction 1; cbn; [done | by apply sublist_skip | by apply sublist_cons].
Qed.

(** X22. List listings answers in store order.  Unless the store refuses
    the pattern that [q] is, every call returns items after one read of the
    listings: the items are stored listings, under their identifiers as
    strings, and they come in the order in which the store holds them. *)
Theorem list_listings_in_store_order
    (q category : option string) (limit : Z) (w : World) :
  if pattern_refused q
  then list_listings q category limit w
       = (Raise OperationFailure, accessed (Reads "listing") w)
  else ∃ items,
      list_listings q category limit w = (Ok items, accessed (Reads "listing") w)
      ∧ items `sublist_of` List.map pop_id (db_listing (db w)).
Proof.
  rewrite list_listings_unfold.
  destruct (pattern_refused q); [reflexivity |].
  eexists. split; [reflexivity |].
  apply map_sublist.
  etrans; [apply take_limit_sublist | apply filter_sublist].
Qed.

End Handlers.

(** * Identifiers as [bson] reads them *)

Lemma hex_not_space (c : ascii) : is_hex c = true → ObjectId.is_space c = false.
Proof. destruct c as [[] [] [] [] [] [] [] []]; vm_compute; congruence. Qed.

(** [bytes.fromhex] reads exactly the strings of the grammar. *)
Lemma fromhex_pairs (l : list ascii) :
  ObjectId.Hex_pairs l ↔ is_Some (ObjectId.fromhex l).
Proof.
  split.
  - induction 1 as [| c l Hc _ IH | c d l Hc Hd _ IH]; cbn [ObjectId.fromhex].
    + by eexists.
    + by rewrite Hc.
    + rewrite (hex_not_space c Hc), Hc, Hd. by apply fmap_is_Some.
  - remember (length l) as n eqn:Hn. revert l Hn.
    induction n as [n IH] using lt_wf_ind. intros l ->.
    destruct l as [| c rest]; [constructor |].
    cbn [ObjectId.fromhex]. destruct (ObjectId.is_space c) eqn:Hspace.
    + intros Hrest. apply ObjectId.pairs_space; [done |].
      apply (IH (length rest)); [cbn; lia | done | done].
    + destruct (is_hex c) eqn:Hc; [| by intros [digits [=]]].
      destruct rest as [| d rest]; [by intros [digits [=]] |].
      destruct (is_hex d) eqn:Hd; [| by intros [digits [=]]].
      intros Hrest. apply fmap_is_Some in Hrest.
      apply ObjectId.pairs_byte; [done | done |].
      apply (IH (length rest)); [cbn; lia | done | done].
Qed.

(** [ObjectId.is_valid] accepts exactly the strings of 24 characters made
    of pairs of hexadecimal digits and of whitespace. *)
Lemma is_valid_readable (s : string) :
  is_valid ObjectId.of_hex s = true ↔ ObjectId.readable s.
Proof.
  unfold is_valid, ObjectId.of_hex, ObjectId.readable.
  rewrite fromhex_pairs. split.
  - intros Hs. apply andb_true_iff in Hs as [_ Hs].
    destruct (len s =? 24) eqn:Hlen; [| discriminate].
    apply Z.eqb_eq in Hlen. split; [done |].
    destruct (ObjectId.fromhex (chars s)); [by eexists | discriminate].
  - intros [Hlen [digits Hdigits]].
    assert (String.eqb s "" = false) as ->
      by (apply String.eqb_neq; intros ->; discriminate).
    apply Z.eqb_eq in Hlen. by rewrite Hlen, Hdigits.
Qed.

(** C5, as amended.  A string that is not of the 24 characters that
    [bson] reads as an identifier (pairs of hexadecimal digits, and ASCII
    whitespace between them) is answered with 400 (InvalidArgument) by each
    handler that takes an identifier (create listing, save listing, list
    saved, send message, get thread), in whichever identifier position it
    stands, and the world is left as it was: the database unchanged and no
    access to the store logged. *)
Theorem malformed_identifier_rejected_before_store
    `{Pcre.Engine} (HttpUrl : string → option string) (s : string) :
  ¬ ObjectId.readable s →
  (∀ body a w,
     CreateListingBody.user_id body = s →
     create_listing HttpUrl ObjectId.of_hex body a w
     = (Raise (HTTPException 400 "Invalid user id"), w))
  ∧ (∀ body a w,
       SaveBody.user_id body = s ∨ SaveBody.listing_id body = s →
       save_listing ObjectId.of_hex body a w
       = (Raise (HTTPException 400 "Invalid ids"), w))
  ∧ (∀ w,
       get_saved ObjectId.of_hex s w
       = (Raise (HTTPException 400 "Invalid user id"), w))
  ∧ (∀ body a w,
       SendMessageBody.listing_id body = s
       ∨ SendMessageBody.from_user_id body = s
       ∨ SendMessageBody.to_user_id body = s →
       send_message ObjectId.of_hex body a w
       = (Raise (HTTPException 400 "Invalid ids"), w))
  ∧ (∀ listing_id a b limit w,
       listing_id = s ∨ a = s ∨ b = s →
       get_thread ObjectId.of_hex listing_id a b limit w
       = (Raise (HTTPException 400 "Invalid ids"), w)).
Proof.
  intros Hs.
  assert (Hbad : is_valid ObjectId.of_hex s = false).
  { destruct (is_valid ObjectId.of_hex s) eqn:Hvalid; [| done].
    by apply is_valid_readable in Hvalid. }
  destruct (guards_reject_invalid HttpUrl ObjectId.of_hex)
    as (Hcreate & Hsave & Hsaved & Hsend & Hthread).
  split; [| split; [| split; [| split]]].
  - intros body a w Hid. apply Hcreate. by rewrite Hid.
  - intros body a w [Hid | Hid]; apply Hsave; rewrite Hid;
      first [by left | by right].
  - intros w. by apply Hsaved.
  - intros body a w [Hid | [Hid | Hid]]; apply Hsend; rewrite Hid;
      first [by left | by right; left | by right; right].
  - intros listing_id a b limit w [Hid | [Hid | Hid]]; apply Hthread; rewrite Hid;
      first [by left | by right; left | by right; right].
Qed.

(** * The handlers at work

    The properties above hold whatever the library functions are.  Below,
    the handlers run on [market] with identifiers read as [bson] reads them,
    [ObjectId.of_hex], and with a store whose queries carry patterns of the
    modelled fragment only. *)

#[local] Existing Instance fragment_only.

Example is_valid_examples :
  is_valid ObjectId.of_hex "64b7f0c2a1d3e4f5a6b70001" = true
  ∧ is_valid ObjectId.of_hex "64B7F0C2A1D3E4F5A6B70001" = true
  ∧ is_valid ObjectId.of_hex "" = false
  ∧ is_valid ObjectId.of_hex "64b7f0c2a1d3e4f5a6b7000" = false
  ∧ is_valid ObjectId.of_hex "64b7f0c2a1d3e4f5a6b7000g" = false
  ∧ is_valid ObjectId.of_hex "64b7f0c2 a1d3e4f5 a6b700" = true
  ∧ is_valid ObjectId.of_hex "64b7f0c 2a1d3e4f5 a6b700" = false
  ∧ is_valid ObjectId.of_hex blank = true
  ∧ ObjectId.of_hex "64B7F0C2A1D3E4F5A6B70001"
    = Some (ObjectId.Oid "64b7f0c2a1d3e4f5a6b70001")
  ∧ ObjectId.of_hex "64b7f0c2 a1d3e4f5 a6b700"
    = Some (ObjectId.Oid "64b7f0c2a1d3e4f5a6b700")
  ∧ ObjectId.of_hex blank = Some (ObjectId.Oid "").
Proof. repeat split. Qed.

Example compile_examples :
  Pcre.compile "a.c" "i" = Pcre.Compiled [Pcre.Lit "a"; Pcre.AnyChar; Pcre.Lit "c"]
  ∧ Pcre.compile "a\.c" "i" = Pcre.Compiled [Pcre.Lit "a"; Pcre.Lit "."; Pcre.Lit "c"]
  ∧ Pcre.compile "\" "i" = Pcre.Rejected
  ∧ Pcre.compile "[a-c]" "i" = Pcre.Unmodelled
  ∧ Pcre.compile "bikes?" "i" = Pcre.Unmodelled.
Proof. repeat split. Qed.

Example search_examples :
  Pcre.search true [Pcre.Lit "b"; Pcre.Lit "i"] "Road BIKE" = true
  ∧ Pcre.search false [Pcre.Lit "b"; Pcre.Lit "i"] "Road BIKE" = false
  ∧ Pcre.search true [Pcre.Lit "d"; Pcre.AnyChar; Pcre.Lit "b"] "Road bike" = true
  ∧ Pcre.search true [Pcre.AnyChar] "" = false.
Proof. repeat split. Qed.

(** [chatty_market] is [market] after two messages were sent. *)
Example chatty_market_by_two_sends :
  ∃ w1,
    send_message ObjectId.of_hex hello
      (mkAssigned (ObjectId.Oid "64b7f0c3ffeeddccbb000001") 1700000003000) market
    = (Ok "64b7f0c3ffeeddccbb000001", w1)
    ∧ send_message ObjectId.of_hex reply
        (mkAssigned (ObjectId.Oid "64b7f0c31122334455000001") 1700000003000) w1
      = (Ok "64b7f0c31122334455000001", chatty_market).
Proof. eexists. split; reflexivity. Qed.

Lemma get_thread_sorted_by_created_at_witness :
  is_valid ObjectId.of_hex bicycle = true
  ∧ is_valid ObjectId.of_hex alice = true
  ∧ is_valid ObjectId.of_hex bob = true
  ∧ ∃ items,
      get_thread ObjectId.of_hex bicycle alice bob 50 chatty_market
      = (Ok items, accessed (Reads "message") chatty_market)
      ∧ Sorted created_no_later items.
Proof.
  repeat (split; [reflexivity |]).
  apply (get_thread_sorted_by_created_at ObjectId.of_hex bicycle alice bob 50 chatty_market);
    reflexivity.
Defined.

(** C1 fails as stated: the two messages of [chatty_market] have the same
    creation timestamp, and get thread returns the one with the greater
    identifier first. *)
Lemma get_thread_ties_not_by_identifier :
  get_thread ObjectId.of_hex bicycle alice bob 50 chatty_market
  = (Ok [ mkItem "64b7f0c3ffeeddccbb000001" 1700000003000
            (Message.mk bicycle bob alice "Is it still for sale?" false);
          mkItem "64b7f0c31122334455000001" 1700000003000
            (Message.mk bicycle alice bob "Yes, it is." false) ],
     accessed (Reads "message") chatty_market)
  ∧ ObjectId.ltb (ObjectId.Oid "64b7f0c31122334455000001")
      (ObjectId.Oid "64b7f0c3ffeeddccbb000001") = true.
Proof. split; reflexivity. Qed.

Lemma send_message_listing_not_found_witness :
  is_valid ObjectId.of_hex "64b7f0c2a1d3e4f5a6b7ffff" = true
  ∧ is_valid ObjectId.of_hex bob = true
  ∧ is_valid ObjectId.of_hex alice = true
  ∧ ∃ w',
      send_message ObjectId.of_hex (SendMessageBody.mk "64b7f0c2a1d3e4f5a6b7ffff" bob alice "Hello")
        (mkAssigned (ObjectId.Oid "64b7f0c3ffeeddccbb000001") 1700000003000) market
      = (Raise (HTTPException 404 "Listing not found"), w')
      ∧ db_message (db w') = db_message (db market)
      ∧ db w' = db market
      ∧ log w' = (log market ++ [Reads "listing"])%list.
Proof.
  repeat (split; [reflexivity |]).
  apply (send_message_listing_not_found ObjectId.of_hex
           (SendMessageBody.mk "64b7f0c2a1d3e4f5a6b7ffff" bob alice "Hello")
           (mkAssigned (ObjectId.Oid "64b7f0c3ffeeddccbb000001") 1700000003000) market);
    try reflexivity.
  repeat constructor.
Defined.

Lemma malformed_identifier_rejected_before_store_witness :
  create_listing accept ObjectId.of_hex
    (CreateListingBody.mk "not-an-id" "Road bike" "Ridden twice" 120 "sports" "sale" None None)
    first_insert market
  = (Raise (HTTPException 400 "Invalid user id"), market)
  ∧ save_listing ObjectId.of_hex (SaveBody.mk alice "not-an-id") first_insert market
    = (Raise (HTTPException 400 "Invalid ids"), market)
  ∧ get_saved ObjectId.of_hex "not-an-id" market
    = (Raise (HTTPException 400 "Invalid user id"), market)
  ∧ send_message ObjectId.of_hex
      (SendMessageBody.mk bicycle "64b7f0c2a1d3e4f5a6b7000g" alice "Hello")
      first_insert market
    = (Raise (HTTPException 400 "Invalid ids"), market)
  ∧ get_thread ObjectId.of_hex bicycle alice "64b7f0c2a1d3e4f5a6b7000g" 50 market
    = (Raise (HTTPException 400 "Invalid ids"), market).
Proof.
  assert (Hshort : ¬ ObjectId.readable "not-an-id")
    by (intros [Hlen _]; vm_compute in Hlen; discriminate).
  assert (Hletter : ¬ ObjectId.readable "64b7f0c2a1d3e4f5a6b7000g").
  { intros [_ Hpairs]. apply fromhex_pairs in Hpairs.
    vm_compute in Hpairs. destruct Hpairs as [digits Hdigits]. discriminate. }
  destruct (malformed_identifier_rejected_before_store accept "not-an-id" Hshort)
    as (Hcreate & Hsave & Hsaved & _ & _).
  destruct (malformed_identifier_rejected_before_store accept
              "64b7f0c2a1d3e4f5a6b7000g" Hletter)
    as (_ & _ & _ & Hsend & Hthread).
  split; [apply Hcreate; reflexivity |].
  split; [apply Hsave; right; reflexivity |].
  split; [apply Hsaved |].
  split; [apply Hsend; right; left; reflexivity |].
  apply Hthread; right; right; reflexivity.
Defined.

Lemma blank_identifier_reaches_store :
  ObjectId.well_formed blank = false
  ∧ get_saved ObjectId.of_hex blank market
    = (Ok [], accessed (Reads "saved") market)
  ∧ ∃ w',
      save_listing ObjectId.of_hex (SaveBody.mk blank blank) first_insert market
      = (Ok (SavedAs "64b7f0c3ffeeddccbb000001"), w')
      ∧ db_saved (db w')
        = [mkDoc (ObjectId.Oid "64b7f0c3ffeeddccbb000001") 1700000003000
             (Saved.mk blank blank)]
      ∧ log w' = [Reads "saved"; Writes "saved"].
Proof.
  split; [reflexivity |]. split; [reflexivity |].
  eexists. split; [reflexivity |]. split; reflexivity.
Qed.

Lemma save_listing_twice_witness :
  is_valid ObjectId.of_hex bob = true
  ∧ is_valid ObjectId.of_hex bicycle = true
  ∧ List.filter (saved_for bob bicycle) (db_saved (db market)) = []
  ∧ ∃ w1 w2,
      save_listing ObjectId.of_hex (SaveBody.mk bob bicycle)
        (mkAssigned (ObjectId.Oid "64b7f0c3ffeeddccbb000001") 1700000003000) market
      = (Ok (SavedAs "64b7f0c3ffeeddccbb000001"), w1)
      ∧ save_listing ObjectId.of_hex (SaveBody.mk bob bicycle)
          (mkAssigned (ObjectId.Oid "64b7f0c31122334455000001") 1700000004000) w1
        = (Ok AlreadySaved, w2)
      ∧ SavedAs "64b7f0c3ffeeddccbb000001" ≠ AlreadySaved
      ∧ db w2 = db w1
      ∧ List.filter (saved_for bob bicycle) (db_saved (db w2))
        = [mkDoc (ObjectId.Oid "64b7f0c3ffeeddccbb000001") 1700000003000
             (Saved.mk bob bicycle)].
Proof.
  repeat (split; [reflexivity |]).
  apply (save_listing_twice ObjectId.of_hex (SaveBody.mk bob bicycle)
           (mkAssigned (ObjectId.Oid "64b7f0c3ffeeddccbb000001") 1700000003000)
           (mkAssigned (ObjectId.Oid "64b7f0c31122334455000001") 1700000004000)
           market); reflexivity.
Defined.

Lemma register_duplicate_email_witness :
  Exists (λ d, User.email (fields d) = "a@x.com") (db_user (db market))
  ∧ ∃ w',
      register no_digest accept accept (RegisterBody.mk "Alice" "a@x.com" "secret" None)
        (mkAssigned (ObjectId.Oid "64b7f0c3ffeeddccbb000001") 1700000003000) market
      = (Raise (HTTPException 400 "Email already registered"), w')
      ∧ db w' = db market
      ∧ log w' = (log market ++ [Reads "user"])%list.
Proof.
  assert (H : Exists (λ d, User.email (fields d) = "a@x.com") (db_user (db market)))
    by (left; reflexivity).
  split; [exact H |].
  exact (register_duplicate_email no_digest accept accept
           (RegisterBody.mk "Alice" "a@x.com" "secret" None)
           (mkAssigned (ObjectId.Oid "64b7f0c3ffeeddccbb000001") 1700000003000)
           market H).
Defined.

(** C8 fails as stated: the failure of a duplicate registration carries
    status 400, the very status of a malformed identifier, so the two are
    not told apart by their class of error but only by their detail. *)
Lemma register_duplicate_has_status_of_malformed_input :
  register no_digest accept accept (RegisterBody.mk "Alice" "a@x.com" "secret" None)
    (mkAssigned (ObjectId.Oid "64b7f0c3ffeeddccbb000001") 1700000003000) market
  = (Raise (HTTPException 400 "Email already registered"),
     accessed (Reads "user") market)
  ∧ get_saved ObjectId.of_hex "not-an-id" market
    = (Raise (HTTPException 400 "Invalid user id"), market)
  ∧ http_status (HTTPException 400 "Email already registered")
    = http_status (HTTPException 400 "Invalid user id").
Proof. repeat split; reflexivity. Qed.

Lemma create_listing_normalises_listing_type_witness :
  is_valid ObjectId.of_hex alice = true
  ∧ Exists (λ d, refers_to ObjectId.of_hex alice d = true) (db_user (db market))
  ∧ len "Flat to let" ≤ 140
  ∧ len "Two rooms" ≤ 5000
  ∧ PrimFloat.leb 0 900 = true
  ∧ mapM accept (default [] None) = Some []
  ∧ ∃ stored w',
      create_listing accept ObjectId.of_hex
        (CreateListingBody.mk alice "Flat to let" "Two rooms" 900 "housing" "lease" None None)
        (mkAssigned (ObjectId.Oid "64b7f0c3ffeeddccbb000001") 1700000003000) market
      = (Ok "64b7f0c3ffeeddccbb000001", w')
      ∧ db_listing (db w')
        = (db_listing (db market)
             ++ [mkDoc (ObjectId.Oid "64b7f0c3ffeeddccbb000001") 1700000003000 stored])%list
      ∧ (In "lease" ["sale"; "service"; "rent"] → Listing.listing_type stored = "lease")
      ∧ (¬ In "lease" ["sale"; "service"; "rent"] → Listing.listing_type stored = "sale").
Proof.
  assert (Howner : Exists (λ d, refers_to ObjectId.of_hex alice d = true) (db_user (db market)))
    by (left; reflexivity).
  assert (Htitle : len "Flat to let" ≤ 140) by (vm_compute; discriminate).
  assert (Hdescr : len "Two rooms" ≤ 5000) by (vm_compute; discriminate).
  split; [reflexivity |]. split; [exact Howner |].
  split; [exact Htitle |]. split; [exact Hdescr |].
  split; [reflexivity |]. split; [reflexivity |].
  exact (proj2 (create_listing_normalises_listing_type accept ObjectId.of_hex
           (CreateListingBody.mk alice "Flat to let" "Two rooms" 900 "housing" "lease" None None)
           (mkAssigned (ObjectId.Oid "64b7f0c3ffeeddccbb000001") 1700000003000)
           market) [] eq_refl Howner Htitle Hdescr eq_refl eq_refl).
Defined.

Example create_listing_lease_stored_as_sale :
  ∃ w',
    create_listing accept ObjectId.of_hex
      (CreateListingBody.mk alice "Flat to let" "Two rooms" 900 "housing" "lease" None None)
      (mkAssigned (ObjectId.Oid "64b7f0c3ffeeddccbb000001") 1700000003000) market
    = (Ok "64b7f0c3ffeeddccbb000001", w')
    ∧ db_listing (db w')
      = [ mkDoc (ObjectId.Oid bicycle) 1700000002000
            (Listing.mk alice "Road bike" "Ridden twice" 120 "sports" "sale" None [] "active");
          mkDoc (ObjectId.Oid "64b7f0c3ffeeddccbb000001") 1700000003000
            (Listing.mk alice "Flat to let" "Two rooms" 900 "housing" "sale" None [] "active") ]
    ∧ log w' = [Reads "user"; Writes "listing"].
Proof. eexists. repeat split. Qed.

Lemma list_listings_active_and_category_witness :
  pattern_refused (Some "bike") = false
  ∧ ∃ items,
      list_listings (Some "bike") (Some "sports") 20 market
      = (Ok items, accessed (Reads "listing") market)
      ∧ Forall (λ i, Listing.status (item i) = "active") items
      ∧ ∀ c, Some "sports" = Some c → c ≠ "" →
             Forall (λ i, Listing.category (item i) = c) items.
Proof.
  split; [reflexivity |].
  exact (list_listings_active_and_category (Some "bike") (Some "sports") 20 market).
Defined.

(** C7 fails as stated: with the empty string as category no category
    clause is added, and list listings returns a listing whose category is
    not the empty string. *)
Lemma list_listings_empty_category_returns_other :
  list_listings None (Some "") 20 market
  = (Ok [ mkItem bicycle 1700000002000
            (Listing.mk alice "Road bike" "Ridden twice" 120 "sports" "sale" None [] "active") ],
     accessed (Reads "listing") market)
  ∧ String.eqb "sports" "" = false.
Proof. split; reflexivity. Qed.

Lemma list_listings_plain_query_witness :
  forallb Pcre.is_plain (chars "BIKE") = true
  ∧ ∃ sel : Doc Listing.t → bool,
      (∀ d, sel d = true
            ↔ Listing.status (fields d) = "active"
              ∧ (∀ c, truthy None = Some c → Listing.category (fields d) = c)
              ∧ contains_ci "BIKE" (Listing.title (fields d)))
      ∧ list_listings (Some "BIKE") None 20 market
        = (Ok (List.map pop_id (take_limit 20 (List.filter sel (db_listing (db market))))),
           accessed (Reads "listing") market).
Proof.
  split; [reflexivity |].
  exact (list_listings_plain_query "BIKE" None 20 market eq_refl).
Defined.

(** C2 fails as stated: the query is read as a regular expression, in
    which a dot stands for any character, so the query "." returns a listing
    whose title contains no dot. *)
Lemma list_listings_dot_matches_any_title :
  list_listings (Some ".") None 20 market
  = (Ok [ mkItem bicycle 1700000002000
            (Listing.mk alice "Road bike" "Ridden twice" 120 "sports" "sale" None [] "active") ],
     accessed (Reads "listing") market)
  ∧ ¬ contains_ci "." "Road bike".
Proof.
  split; [reflexivity |].
  intros Hin. apply search_literal in Hin. discriminate.
Qed.

(** ** Registration and login at work *)

Lemma register_creates_user_witness :
  List.filter (has_email "c@x.com") (db_user (db market)) = []
  ∧ accept "c@x.com" = Some "c@x.com"
  ∧ ∃ w',
      register no_digest accept accept (RegisterBody.mk "Carol" "c@x.com" "secret" None)
        (mkAssigned (ObjectId.Oid "64b7f0c3ffeeddccbb000001") 1700000003000) market
      = (Ok (mkRegistered "64b7f0c3ffeeddccbb000001" "Carol" "c@x.com"), w')
      ∧ db_user (db w')
        = (db_user (db market) ++
             [mkDoc (ObjectId.Oid "64b7f0c3ffeeddccbb000001") 1700000003000
                (User.mk "Carol" "c@x.com" (no_digest "secret") None None true)])%list
      ∧ db_listing (db w') = db_listing (db market)
      ∧ db_message (db w') = db_message (db market)
      ∧ db_saved (db w') = db_saved (db market)
      ∧ log w' = (log market ++ [Reads "user"; Writes "user"])%list.
Proof.
  split; [reflexivity |]. split; [reflexivity |].
  exact (register_creates_user no_digest accept accept
           (RegisterBody.mk "Carol" "c@x.com" "secret" None)
           (mkAssigned (ObjectId.Oid "64b7f0c3ffeeddccbb000001") 1700000003000)
           market "c@x.com" eq_refl eq_refl).
Defined.

Lemma register_then_login_witness :
  List.filter (has_email "C@X.com") (db_user (db market)) = []
  ∧ List.filter (has_email "c@x.com") (db_user (db market)) = []
  ∧ fold_case "C@X.com" = Some "c@x.com"
  ∧ ∃ r w1,
      register marked fold_case accept (RegisterBody.mk "Carol" "C@X.com" "Secret" None)
        (mkAssigned (ObjectId.Oid "64b7f0c3ffeeddccbb000001") 1700000003000) market
      = (Ok r, w1)
      ∧ login marked (LoginBody.mk "c@x.com" "Secret") w1
        = (Ok r, accessed (Reads "user") w1)
      ∧ r = mkRegistered "64b7f0c3ffeeddccbb000001" "Carol" "c@x.com".
Proof.
  split; [reflexivity |]. split; [reflexivity |]. split; [reflexivity |].
  exact (register_then_login marked fold_case accept
           (RegisterBody.mk "Carol" "C@X.com" "Secret" None)
           (mkAssigned (ObjectId.Oid "64b7f0c3ffeeddccbb000001") 1700000003000)
           market "c@x.com" eq_refl eq_refl eq_refl).
Defined.

Lemma login_invalid_credentials_witness :
  (∀ u, head (List.filter (has_email "a@x.com") (db_user (db market))) = Some u →
        User.password_hash (fields u) ≠ marked "guess")
  ∧ login marked (LoginBody.mk "a@x.com" "guess") market
    = (Raise (HTTPException 401 "Invalid credentials"), accessed (Reads "user") market)
  ∧ login marked (LoginBody.mk "nobody@x.com" "guess") market
    = (Raise (HTTPException 401 "Invalid credentials"), accessed (Reads "user") market).
Proof.
  assert (H : ∀ u,
    head (List.filter (has_email "a@x.com") (db_user (db market))) = Some u →
    User.password_hash (fields u) ≠ marked "guess").
  { intros u [= <-]. discriminate. }
  split; [exact H |].
  split; [exact (login_invalid_credentials marked (LoginBody.mk "a@x.com" "guess") market H) |].
  apply (login_invalid_credentials marked (LoginBody.mk "nobody@x.com" "guess") market).
  intros u [=].
Defined.

Lemma register_twice_same_email_witness :
  List.filter (has_email "c@x.com") (db_user (db market)) = []
  ∧ accept "c@x.com" = Some "c@x.com"
  ∧ ∃ r w1,
      register no_digest accept accept (RegisterBody.mk "Carol" "c@x.com" "secret" None)
        (mkAssigned (ObjectId.Oid "64b7f0c3ffeeddccbb000001") 1700000003000) market
      = (Ok r, w1)
      ∧ register no_digest accept accept (RegisterBody.mk "Caroline" "c@x.com" "other" None)
          (mkAssigned (ObjectId.Oid "64b7f0c31122334455000001") 1700000004000) w1
        = (Raise (HTTPException 400 "Email already registered"),
           accessed (Reads "user") w1)
      ∧ length (List.filter (has_email "c@x.com") (db_user (db w1))) = 1%nat.
Proof.
  split; [reflexivity |]. split; [reflexivity |].
  exact (register_twice_same_email no_digest accept accept
           (RegisterBody.mk "Carol" "c@x.com" "secret" None)
           (RegisterBody.mk "Caroline" "c@x.com" "other" None)
           (mkAssigned (ObjectId.Oid "64b7f0c3ffeeddccbb000001") 1700000003000)
           (mkAssigned (ObjectId.Oid "64b7f0c31122334455000001") 1700000004000)
           market eq_refl eq_refl eq_refl).
Defined.

Lemma register_twice_rewritten_email_witness :
  List.filter (has_email "C@X.com") (db_user (db market)) = []
  ∧ fold_case "C@X.com" = Some "c@x.com"
  ∧ String.eqb "c@x.com" "C@X.com" = false
  ∧ ∃ r1 r2 w1 w2 u1 u2,
      register no_digest fold_case accept (RegisterBody.mk "Carol" "C@X.com" "secret" None)
        (mkAssigned (ObjectId.Oid "64b7f0c3ffeeddccbb000001") 1700000003000) market
      = (Ok r1, w1)
      ∧ register no_digest fold_case accept (RegisterBody.mk "Carol" "C@X.com" "secret" None)
          (mkAssigned (ObjectId.Oid "64b7f0c31122334455000001") 1700000004000) w1
        = (Ok r2, w2)
      ∧ db_user (db w2) = (db_user (db market) ++ [u1; u2])%list
      ∧ User.email (fields u1) = "c@x.com"
      ∧ User.email (fields u2) = "c@x.com".
Proof.
  split; [reflexivity |]. split; [reflexivity |]. split; [reflexivity |].
  apply (register_twice_rewritten_email no_digest fold_case accept
           (RegisterBody.mk "Carol" "C@X.com" "secret" None)
           (mkAssigned (ObjectId.Oid "64b7f0c3ffeeddccbb000001") 1700000003000)
           (mkAssigned (ObjectId.Oid "64b7f0c31122334455000001") 1700000004000)
           market "c@x.com"); [reflexivity | reflexivity |].
  apply String.eqb_neq. reflexivity.
Defined.

(** ** Conversations, listings and saved entries at work *)

Lemma get_thread_only_thread_messages_witness :
  get_thread ObjectId.of_hex bicycle alice bob 50 chatty_market
  = (Ok chat_items, accessed (Reads "message") chatty_market)
  ∧ Forall
      (λ i, ∃ d, In d (db_message (db chatty_market))
                 ∧ i = pop_id d
                 ∧ Message.listing_id (item i) = bicycle
                 ∧ ((Message.from_user_id (item i) = alice ∧ Message.to_user_id (item i) = bob)
                    ∨ (Message.from_user_id (item i) = bob ∧ Message.to_user_id (item i) = alice)))
      chat_items.
Proof.
  split; [reflexivity |].
  exact (get_thread_only_thread_messages ObjectId.of_hex bicycle alice bob 50
           chatty_market (accessed (Reads "message") chatty_market) chat_items eq_refl).
Defined.

Lemma get_thread_complete_within_limit_witness :
  is_valid ObjectId.of_hex bicycle = true
  ∧ is_valid ObjectId.of_hex alice = true
  ∧ is_valid ObjectId.of_hex bob = true
  ∧ Z.of_nat (length (List.filter (in_thread bicycle alice bob)
                        (db_message (db chatty_market)))) ≤ 2
  ∧ ∃ items,
      get_thread ObjectId.of_hex bicycle alice bob 2 chatty_market
      = (Ok items, accessed (Reads "message") chatty_market)
      ∧ items ≡ₚ List.map pop_id
                   (List.filter (in_thread bicycle alice bob)
                      (db_message (db chatty_market))).
Proof.
  assert (Hlimit : Z.of_nat (length (List.filter (in_thread bicycle alice bob)
                                       (db_message (db chatty_market)))) ≤ 2)
    by (vm_compute; discriminate).
  do 3 (split; [reflexivity |]). split; [exact Hlimit |].
  exact (get_thread_complete_within_limit ObjectId.of_hex bicycle alice bob 2
           chatty_market eq_refl eq_refl eq_refl Hlimit).
Defined.

Lemma routes_cap_results_witness :
  GET_api_messages_thread ObjectId.of_hex bicycle alice bob (Some 1) chatty_market
  = (Ok (firstn 1 chat_items), accessed (Reads "message") chatty_market)
  ∧ Z.of_nat (length (firstn 1 chat_items)) ≤ default 50 (Some 1)
  ∧ default 50 (Some 1) ≤ 200
  ∧ GET_api_listings None None None market
    = (Ok [bicycle_item], accessed (Reads "listing") market)
  ∧ Z.of_nat (length [bicycle_item]) ≤ default 20 None
  ∧ default 20 None ≤ 100
  ∧ (∃ items,
       GET_api_listings (Some "bike") (Some "sports") (Some 100) market
       = (Ok items, accessed (Reads "listing") market))
  ∧ ∃ items,
      GET_api_messages_thread ObjectId.of_hex bicycle alice bob None chatty_market
      = (Ok items, accessed (Reads "message") chatty_market).
Proof.
  destruct (routes_cap_results ObjectId.of_hex)
    as (Hlistings & Hthread & Hlisted & Hanswered).
  split; [reflexivity |].
  destruct (Hthread bicycle alice bob (Some 1) chatty_market
              (accessed (Reads "message") chatty_market) (firstn 1 chat_items) eq_refl)
    as [Hlen Hcap].
  split; [exact Hlen |]. split; [exact Hcap |].
  split; [reflexivity |].
  destruct (Hlistings None None None market (accessed (Reads "listing") market)
              [bicycle_item] eq_refl)
    as [Hlen' Hcap'].
  split; [exact Hlen' |]. split; [exact Hcap' |].
  split.
  - apply Hlisted; [intros n [= <-]; lia | reflexivity].
  - apply Hanswered; [intros n [=] | reflexivity | reflexivity | reflexivity].
Defined.

Lemma routes_refuse_limit_out_of_bounds_witness :
  GET_api_listings (Some "bike") None (Some 0) market
  = (Raise (RequestValidationError "limit"), market)
  ∧ GET_api_listings None None (Some 101) market
    = (Raise (RequestValidationError "limit"), market)
  ∧ GET_api_messages_thread ObjectId.of_hex bicycle alice bob (Some 201) chatty_market
    = (Raise (RequestValidationError "limit"), chatty_market)
  ∧ GET_api_messages_thread ObjectId.of_hex "not-an-id" alice bob (Some (-1)) chatty_market
    = (Raise (RequestValidationError "limit"), chatty_market).
Proof.
  destruct (routes_refuse_limit_out_of_bounds ObjectId.of_hex) as [Hlistings Hthread].
  split; [apply Hlistings; lia |]. split; [apply Hlistings; lia |].
  split; apply Hthread; lia.
Defined.

Lemma create_listing_owner_not_found_witness :
  is_valid ObjectId.of_hex nobody = true
  ∧ Forall (λ d, refers_to ObjectId.of_hex nobody d = false) (db_user (db market))
  ∧ create_listing accept ObjectId.of_hex
      (CreateListingBody.mk nobody "Flat to let" "Two rooms" 900 "housing" "rent" None None)
      first_insert market
    = (Raise (HTTPException 404 "User not found"), accessed (Reads "user") market).
Proof.
  assert (Hnone : Forall (λ d, refers_to ObjectId.of_hex nobody d = false)
                    (db_user (db market)))
    by (repeat constructor).
  split; [reflexivity |]. split; [exact Hnone |].
  exact (create_listing_owner_not_found accept ObjectId.of_hex
           (CreateListingBody.mk nobody "Flat to let" "Two rooms" 900 "housing" "rent" None None)
           first_insert market eq_refl Hnone).
Defined.

Lemma create_listing_schema_refusal_witness :
  is_valid ObjectId.of_hex alice = true
  ∧ Exists (λ d, refers_to ObjectId.of_hex alice d = true) (db_user (db market))
  ∧ PrimFloat.leb 0 (-5) = false
  ∧ create_listing accept ObjectId.of_hex
      (CreateListingBody.mk alice "Flat to let" "Two rooms" (-5) "housing" "rent" None None)
      first_insert market
    = (Raise (ValidationError "Listing"), accessed (Reads "user") market).
Proof.
  assert (Howner : Exists (λ d, refers_to ObjectId.of_hex alice d = true)
                     (db_user (db market)))
    by (left; reflexivity).
  split; [reflexivity |]. split; [exact Howner |]. split; [reflexivity |].
  apply (create_listing_schema_refusal accept ObjectId.of_hex
           (CreateListingBody.mk alice "Flat to let" "Two rooms" (-5) "housing" "rent" None None)
           first_insert market eq_refl Howner).
  right; right; left. reflexivity.
Defined.

Lemma send_message_stores_witness :
  is_valid ObjectId.of_hex bicycle = true
  ∧ is_valid ObjectId.of_hex bob = true
  ∧ is_valid ObjectId.of_hex nobody = true
  ∧ Exists (λ d, refers_to ObjectId.of_hex bicycle d = true) (db_listing (db market))
  ∧ len "Hello" ≤ 5000
  ∧ ∃ w',
      send_message ObjectId.of_hex (SendMessageBody.mk bicycle bob nobody "Hello")
        first_insert market
      = (Ok "64b7f0c3ffeeddccbb000001", w')
      ∧ db_message (db w')
        = (db_message (db market) ++
             [mkDoc (ObjectId.Oid "64b7f0c3ffeeddccbb000001") 1700000003000
                (Message.mk bicycle bob nobody "Hello" false)])%list
      ∧ db_user (db w') = db_user (db market)
      ∧ db_listing (db w') = db_listing (db market)
      ∧ db_saved (db w') = db_saved (db market)
      ∧ log w' = (log market ++ [Reads "listing"; Writes "message"])%list.
Proof.
  assert (Hlisting : Exists (λ d, refers_to ObjectId.of_hex bicycle d = true)
                       (db_listing (db market)))
    by (left; reflexivity).
  assert (Hlen : len "Hello" ≤ 5000) by (vm_compute; discriminate).
  do 3 (split; [reflexivity |]). split; [exact Hlisting |]. split; [exact Hlen |].
  exact (send_message_stores ObjectId.of_hex (SendMessageBody.mk bicycle bob nobody "Hello")
           first_insert market eq_refl eq_refl eq_refl Hlisting Hlen).
Defined.

Lemma send_message_content_too_long_witness :
  is_valid ObjectId.of_hex bicycle = true
  ∧ is_valid ObjectId.of_hex bob = true
  ∧ is_valid ObjectId.of_hex alice = true
  ∧ Exists (λ d, refers_to ObjectId.of_hex bicycle d = true) (db_listing (db market))
  ∧ 5000 < len long_text
  ∧ send_message ObjectId.of_hex (SendMessageBody.mk bicycle bob alice long_text)
      first_insert market
    = (Raise (ValidationError "Message"), accessed (Reads "listing") market).
Proof.
  assert (Hlisting : Exists (λ d, refers_to ObjectId.of_hex bicycle d = true)
                       (db_listing (db market)))
    by (left; reflexivity).
  assert (Hlen : 5000 < len long_text) by (vm_compute; reflexivity).
  do 3 (split; [reflexivity |]). split; [exact Hlisting |]. split; [exact Hlen |].
  exact (send_message_content_too_long ObjectId.of_hex
           (SendMessageBody.mk bicycle bob alice long_text)
           first_insert market eq_refl eq_refl eq_refl Hlisting Hlen).
Defined.

Lemma send_message_then_get_thread_witness :
  is_valid ObjectId.of_hex bicycle = true
  ∧ is_valid ObjectId.of_hex bob = true
  ∧ is_valid ObjectId.of_hex alice = true
  ∧ Exists (λ d, refers_to ObjectId.of_hex bicycle d = true) (db_listing (db market))
  ∧ len "Is it still for sale?" ≤ 5000
  ∧ Z.of_nat (length (List.filter (in_thread bicycle bob alice) (db_message (db market)))) < 50
  ∧ ∃ id w1 items,
      send_message ObjectId.of_hex hello first_insert market = (Ok id, w1)
      ∧ get_thread ObjectId.of_hex bicycle bob alice 50 w1
        = (Ok items, accessed (Reads "message") w1)
      ∧ get_thread ObjectId.of_hex bicycle alice bob 50 w1
        = (Ok items, accessed (Reads "message") w1)
      ∧ In (mkItem id 1700000003000 (message_of hello)) items.
Proof.
  assert (Hlisting : Exists (λ d, refers_to ObjectId.of_hex bicycle d = true)
                       (db_listing (db market)))
    by (left; reflexivity).
  assert (Hlen : len "Is it still for sale?" ≤ 5000) by (vm_compute; discriminate).
  assert (Hlimit : Z.of_nat (length (List.filter (in_thread bicycle bob alice)
                                       (db_message (db market)))) < 50)
    by (vm_compute; reflexivity).
  do 3 (split; [reflexivity |]). split; [exact Hlisting |].
  split; [exact Hlen |]. split; [exact Hlimit |].
  exact (send_message_then_get_thread ObjectId.of_hex hello first_insert market 50
           eq_refl eq_refl eq_refl Hlisting Hlen Hlimit).
Defined.

Lemma create_listing_then_list_listings_witness :
  is_valid ObjectId.of_hex alice = true
  ∧ Exists (λ d, refers_to ObjectId.of_hex alice d = true) (db_user (db market))
  ∧ len "Flat to let" ≤ 140
  ∧ len "Two rooms" ≤ 5000
  ∧ PrimFloat.leb 0 900 = true
  ∧ mapM accept (default [] None) = Some []
  ∧ Z.of_nat (length (List.filter (selected None (Some "housing"))
                        (db_listing (db market)))) < 20
  ∧ ∃ id w1 items,
      create_listing accept ObjectId.of_hex
        (CreateListingBody.mk alice "Flat to let" "Two rooms" 900 "housing" "lease" None None)
        first_insert market
      = (Ok id, w1)
      ∧ list_listings None (Some "housing") 20 w1
        = (Ok items, accessed (Reads "listing") w1)
      ∧ In (mkItem id 1700000003000
              (Listing.mk alice "Flat to let" "Two rooms" 900 "housing" "sale" None []
                 "active")) items.
Proof.
  assert (Howner : Exists (λ d, refers_to ObjectId.of_hex alice d = true)
                     (db_user (db market)))
    by (left; reflexivity).
  assert (Htitle : len "Flat to let" ≤ 140) by (vm_compute; discriminate).
  assert (Hdescr : len "Two rooms" ≤ 5000) by (vm_compute; discriminate).
  assert (Hlimit : Z.of_nat (length (List.filter (selected None (Some "housing"))
                                       (db_listing (db market)))) < 20)
    by (vm_compute; reflexivity).
  split; [reflexivity |]. split; [exact Howner |].
  split; [exact Htitle |]. split; [exact Hdescr |].
  split; [reflexivity |]. split; [reflexivity |]. split; [exact Hlimit |].
  exact (create_listing_then_list_listings accept ObjectId.of_hex
           (CreateListingBody.mk alice "Flat to let" "Two rooms" 900 "housing" "lease" None None)
           first_insert market [] 20 eq_refl Howner Htitle Hdescr eq_refl eq_refl Hlimit).
Defined.

Lemma get_saved_returns_entries_of_user_witness :
  is_valid ObjectId.of_hex bob = true
  ∧ ∃ items,
      get_saved ObjectId.of_hex bob market = (Ok items, accessed (Reads "saved") market)
      ∧ items = List.map pop_id (List.filter (saved_by bob) (db_saved (db market)))
      ∧ Forall (λ i, Saved.user_id (item i) = bob) items
      ∧ ∀ d, In d (db_saved (db market)) → Saved.user_id (fields d) = bob →
             In (pop_id d) items.
Proof.
  split; [reflexivity |].
  exact (get_saved_returns_entries_of_user ObjectId.of_hex bob market eq_refl).
Defined.

Lemma save_listing_then_get_saved_witness :
  is_valid ObjectId.of_hex bob = true
  ∧ is_valid ObjectId.of_hex nobody = true
  ∧ List.filter (saved_for bob nobody) (db_saved (db market)) = []
  ∧ ∃ before w1,
      get_saved ObjectId.of_hex bob market = (Ok before, accessed (Reads "saved") market)
      ∧ save_listing ObjectId.of_hex (SaveBody.mk bob nobody) first_insert market
        = (Ok (SavedAs "64b7f0c3ffeeddccbb000001"), w1)
      ∧ get_saved ObjectId.of_hex bob w1
        = (Ok (before ++
                 [mkItem "64b7f0c3ffeeddccbb000001" 1700000003000 (Saved.mk bob nobody)])%list,
           accessed (Reads "saved") w1)
      ∧ log w1 = (log market ++ [Reads "saved"; Writes "saved"])%list.
Proof.
  do 3 (split; [reflexivity |]).
  exact (save_listing_then_get_saved ObjectId.of_hex (SaveBody.mk bob nobody)
           first_insert market eq_refl eq_refl eq_refl).
Defined.

Lemma save_listing_keeps_pairs_unique_witness :
  pairs_unique (db_saved (db market))
  ∧ pairs_unique
      (db_saved (db (save_listing ObjectId.of_hex (SaveBody.mk bob bicycle)
                       second_insert
                       (save_listing ObjectId.of_hex (SaveBody.mk bob bicycle)
                          first_insert market).2).2)).
Proof.
  assert (H0 : pairs_unique (db_saved (db market))) by (intros u l; cbn; lia).
  split; [exact H0 |].
  apply (save_listing_keeps_pairs_unique ObjectId.of_hex).
  apply (save_listing_keeps_pairs_unique ObjectId.of_hex). exact H0.
Defined.

Lemma ObjectIdStr_validate_agrees_with_is_valid_witness :
  String.eqb alice "" = false
  ∧ ObjectIdStr_validate ObjectId.of_hex alice market = (Ok alice, market)
  ∧ ObjectIdStr_validate ObjectId.of_hex "not-an-id" market
    = (Raise (HTTPException 400 "Invalid id"), market).
Proof.
  split; [reflexivity |]. split.
  - apply (ObjectIdStr_validate_agrees_with_is_valid ObjectId.of_hex alice market).
    apply String.eqb_neq. reflexivity.
  - apply (ObjectIdStr_validate_agrees_with_is_valid ObjectId.of_hex "not-an-id" market).
    apply String.eqb_neq. reflexivity.
Defined.

Lemma list_listings_in_store_order_witness :
  pattern_refused None = false
  ∧ ∃ items,
      list_listings None None 20 market
      = (Ok items, accessed (Reads "listing") market)
      ∧ items `sublist_of` List.map pop_id (db_listing (db market)).
Proof.
  split; [reflexivity |].
  exact (list_listings_in_store_order None None 20 market).
Defined.
